(** * Versioned documentation tree: link resolution and build orchestration

    A shallow embedding of [docs/versions.py] (class [VersionManagement] and
    the context manager [CheckoutBranch]) together with the properties of the
    relative-link resolver, the document enumeration, the version status scan,
    the promotion of the latest version and the per-version build loop. *)

From Stdlib Require Import ZArith Lia Ascii.
From stdpp Require Import base tactics option list strings gmap.

#[local] Arguments String.append !_ _ /.
#[local] Arguments Ascii.eqb : simpl never.

(** ** Python values used by the program *)

(** Exceptions the modelled code can raise. *)
Inductive exn : Type :=
  | ValueError
  | IndexError
  | FileNotFoundError
  | AssertionError
  | CalledProcessError
  | ShutilError.

(** A computation that returns a value or raises. *)
Inductive result (A : Type) : Type :=
  | Ok (a : A)
  | Raise (e : exn).
Arguments Ok {A} a.
Arguments Raise {A} e.

Global Instance result_ret : MRet result := λ A a, Ok a.
Global Instance result_bind : MBind result := λ A B k m,
  match m with
  | Ok a => k a
  | Raise e => Raise e
  end.

(** Python [str] methods, on Rocq strings. *)
Module Py.

(** [c in chars] *)
Fixpoint str_mem (c : ascii) (chars : string) : bool :=
  match chars with
  | EmptyString => false
  | String d chars' => if Ascii.eqb c d then true else str_mem c chars'
  end.

(** [s.rstrip(chars)]: drop the longest trailing run of characters that
    occur in [chars]. *)
Fixpoint rstrip (chars s : string) : string :=
  match s with
  | EmptyString => EmptyString
  | String c s' =>
      match rstrip chars s' with
      | EmptyString => if str_mem c chars then EmptyString else String c EmptyString
      | r => String c r
      end
  end.

(** [s.startswith(p)] *)
Fixpoint startswith (s p : string) {struct p} : bool :=
  match p with
  | EmptyString => true
  | String a p' =>
      match s with
      | EmptyString => false
      | String b s' => Ascii.eqb a b && startswith s' p'
      end
  end.

(** [s * n]: the empty string when [n <= 0]. *)
Definition str_mul (s : string) (n : Z) : string :=
  Nat.iter (Z.to_nat n) (String.append s) EmptyString.

(** [s.replace(old, new)] for a non-empty [old]: a scan from the left that
    replaces each occurrence and resumes after it, so occurrences do not
    overlap. [skip] counts the characters of a matched occurrence that the
    scan still has to pass over. *)
Fixpoint replace_from (old new : string) (skip : nat) (s : string) : string :=
  match s with
  | EmptyString => EmptyString
  | String c s' =>
      match skip with
      | S k => replace_from old new k s'
      | O =>
          if startswith s old
          then new +:+ replace_from old new (String.length old - 1) s'
          else String c (replace_from old new O s')
      end
  end.

Definition replace (old new s : string) : string := replace_from old new O s.

(** [sep.join(l)] *)
Definition join (sep : string) (l : list string) : string := String.concat sep l.

(** [s.endswith(p)] *)
Definition endswith (s p : string) : bool :=
  startswith (String.rev s) (String.rev p).

End Py.

(** ** [pathlib] paths

    A path is the tuple [Path.parts]; an absolute path has the root ["/"] as
    its first part. Parts contain no separator, so [Path( *parts )] rebuilds
    the path with the same parts. *)
Module PurePath.

Abbreviation t := (list string).

(** [str(p)] of a relative path; the empty path prints as ["."]. *)
Definition str (p : t) : string :=
  match p with
  | [] => "."
  | _ => Py.join "/" p
  end.

(** [p.relative_to(other)] raises [ValueError] unless [other] is a leading
    part of [p]. The two paths are of one kind, both absolute or both
    relative: an absolute [p] against the empty relative [other] is not
    covered. *)
Fixpoint relative_to (p other : t) {struct other} : result t :=
  match other with
  | [] => Ok p
  | o :: other' =>
      match p with
      | [] => Raise ValueError
      | q :: p' => if decide (q = o) then relative_to p' other' else Raise ValueError
      end
  end.

(** [parts[i]] *)
Definition part (p : t) (i : nat) : result string :=
  match p !! i with
  | Some s => Ok s
  | None => Raise IndexError
  end.


(** [p.name] *)
Definition name (p : t) : string := List.last p "".

End PurePath.

(** ** [VersionManagement.get_value_for_option] *)

(** The local [value] just before the function's [return]. *)
Definition option_value (docsdir html_filepath : PurePath.t)
    (version_in_dropdown version_in_dir latest_version : string) : result string :=
  path_relative_to_docroot ← PurePath.relative_to html_filepath docsdir;
  if decide (version_in_dir = version_in_dropdown) then
    part0 ← PurePath.part path_relative_to_docroot 0;
    if decide (part0 = latest_version)
    then Ok (PurePath.str (drop 1 path_relative_to_docroot))
    else Ok (PurePath.str path_relative_to_docroot)
  else
    let rel_path :=
      if decide (version_in_dir = latest_version)
      then PurePath.str path_relative_to_docroot
      else PurePath.str (drop 1 path_relative_to_docroot) in
    let rel_path_len := (Z.of_nat (length path_relative_to_docroot) - 1)%Z in
    let rel_version :=
      if decide (version_in_dropdown ≠ latest_version)
      then version_in_dropdown else "" in
    Ok (Py.replace "//" "/"
          (Py.str_mul "../" rel_path_len +:+ rel_version +:+ "/" +:+ rel_path)).

(** The two [rstrip] calls of the [return] statement. *)
Definition trim_suffix (value : string) : string :=
  Py.rstrip ".html" (Py.rstrip "index.html" value).

Definition get_value_for_option (docsdir html_filepath : PurePath.t)
    (version_in_dropdown version_in_dir latest_version : string) : result string :=
  value ← option_value docsdir html_filepath
            version_in_dropdown version_in_dir latest_version;
  Ok (trim_suffix value).

(** [get_text_for_option] *)
Definition get_text_for_option (version_in_dropdown latest_version : string) : string :=
  if decide (version_in_dropdown = latest_version)
  then "latest(" +:+ version_in_dropdown +:+ ")"
  else version_in_dropdown.

(** [is_option_selected] *)
Definition is_option_selected (version_in_dropdown version_in_dir : string) : bool :=
  bool_decide (version_in_dropdown = version_in_dir).


(** ** The resolver as the specification words it

    Case B of the algorithm: [depth] repetitions of ["../"], the target
    prefix, a separator and the relative path, with doubled separators
    collapsed in one pass from the left. *)

(** One left-to-right pass that turns each pair ["//"] into ["/"]; the
    output is not scanned again. *)
Fixpoint collapse_dslash (s : string) : string :=
  match s with
  | EmptyString => EmptyString
  | String c s' =>
      if Ascii.eqb c "/" then
        match s' with
        | EmptyString => String c EmptyString
        | String c' s'' =>
            if Ascii.eqb c' "/"
            then String "/" (collapse_dslash s'')
            else String c (collapse_dslash s')
        end
      else String c (collapse_dslash s')
  end.

Definition resolve_other_version (rel : PurePath.t)
    (versionInDropdown versionInDir latestVersion : string) : string :=
  let depth := (length rel - 1) in
  let targetPrefix :=
    if decide (versionInDropdown = latestVersion) then "" else versionInDropdown in
  let relPath :=
    if decide (versionInDir = latestVersion)
    then PurePath.str rel
    else PurePath.str (tail rel) in
  collapse_dslash
    (String.concat "" (replicate depth "../") +:+ targetPrefix +:+ "/" +:+ relPath).

(** The character set of the trailing trim. *)
Definition trim_set : string := "index.html".

(** [s] is empty or ends in a character outside [chars]. *)
Fixpoint ends_outside (chars s : string) : bool :=
  match s with
  | EmptyString => true
  | String c EmptyString => negb (Py.str_mem c chars)
  | String _ s' => ends_outside chars s'
  end.

(** Every character of [s] occurs in [chars]. *)
Fixpoint all_in (chars s : string) : bool :=
  match s with
  | EmptyString => true
  | String c s' => Py.str_mem c chars && all_in chars s'
  end.

(** Removal of the literal suffix [suf], when present. *)
Definition remove_suffix (suf s : string) : string :=
  if Py.endswith s suf
  then String.substring 0 (String.length s - String.length suf) s
  else s.

(** ** Following a link

    A browser resolves a relative reference against the directory of the
    current document: [".."] leaves a directory, ["."] and empty segments stay,
    any other segment is entered. The tree root is served as the site root,
    so a reference that starts with a separator restarts from the root. A
    reference that ends in a directory is served by that directory's
    [index.html]. *)
Module Url.

Fixpoint split_slash (s : string) : list string :=
  match s with
  | EmptyString => [EmptyString]
  | String c s' =>
      if Ascii.eqb c "/" then EmptyString :: split_slash s'
      else match split_slash s' with
           | [] => [String c EmptyString]
           | seg :: segs => String c seg :: segs
           end
  end.





End Url.




(** A path segment that names a directory entry. *)
Definition valid_segment (s : string) : Prop :=
  s ≠ "" ∧ s ≠ "." ∧ s ≠ ".." ∧ Py.str_mem "/" s = false.

(** The parts that joining a relative name to a directory appends, as
    [Path(dir, name)] and [os.path.join(dir, name)] read it: the name is cut at
    the separators, and empty pieces and ["."] are passed over. *)
Definition path_parts (name : string) : list string :=
  filter (λ seg, seg ≠ "" ∧ seg ≠ ".") (Url.split_slash name).

(** Where the content of version [v] lives below the tree root. *)
Definition version_slot (v latest_version : string) : PurePath.t :=
  if decide (v = latest_version) then [] else [v].



(** ** The documentation tree on disk *)

(** A directory lists its entries in the order [os.listdir] and [os.scandir]
    report them. *)
#[warnings="-register-all"]
Inductive fsnode : Type :=
  | File
  | Dir (entries : list (string * fsnode)).

Module Fs.

Abbreviation entries := (list (string * fsnode)).

Fixpoint lookup_entry (name : string) (es : entries) : option fsnode :=
  match es with
  | [] => None
  | (n, node) :: es' => if decide (n = name) then Some node else lookup_entry name es'
  end.

Definition remove_entry (name : string) (es : entries) : entries :=
  filter (λ e, e.1 ≠ name) es.

Definition replace_entry (name : string) (node : fsnode) (es : entries) : entries :=
  fmap (λ e, if decide (e.1 = name) then (name, node) else e) es.

(** [os.listdir(dir)] *)
Definition listdir (es : entries) : list string := fmap fst es.

(** [os.path.isdir(os.path.join(dir, name))] *)
Definition isdir (es : entries) (name : string) : bool :=
  match lookup_entry name es with
  | Some (Dir _) => true
  | _ => false
  end.

(** [os.path.isfile(os.path.join(dir, name))] *)
Definition isfile (es : entries) (name : string) : bool :=
  match lookup_entry name es with
  | Some File => true
  | _ => false
  end.

(** The node a relative path leads to. *)
Fixpoint node_at (n : fsnode) (p : PurePath.t) : option fsnode :=
  match p with
  | [] => Some n
  | s :: p' =>
      match n with
      | File => None
      | Dir es =>
          match lookup_entry s es with
          | Some child => node_at child p'
          | None => None
          end
      end
  end.

(** Names are unique within every directory. *)
Fixpoint wf (n : fsnode) : Prop :=
  match n with
  | File => True
  | Dir es =>
      NoDup (fmap fst es) ∧
      (fix all (es : entries) : Prop :=
         match es with
         | [] => True
         | e :: es' => wf e.2 ∧ all es'
         end) es
  end.

(** The pattern ['*.html'] on an entry name. *)
Definition matches_html (name : string) : bool := Py.endswith name ".html".

(** [Path(dir).rglob('*.html')], as paths relative to [dir]: the matching
    entries of the directory itself, then those of each sub-directory in
    turn, depth first. *)
Fixpoint rglob_html (n : fsnode) : list PurePath.t :=
  match n with
  | File => []
  | Dir es =>
      fmap (λ e, [e.1]) (filter (λ e, matches_html e.1 = true) es)
      ++ (fix below (es : entries) : list PurePath.t :=
            match es with
            | [] => []
            | e :: es' => fmap (cons e.1) (rglob_html e.2) ++ below es'
            end) es
  end.

(** [shutil.move(src=dir/version/content, dst=dir)]: the entry is renamed
    into [dir] under its own name; an entry of that name already in [dir]
    is an error. *)
Definition move_into_parent (version content : string) (es : entries) : result entries :=
  match lookup_entry content es with
  | Some _ => Raise ShutilError
  | None =>
      match lookup_entry version es with
      | Some (Dir cs) =>
          match lookup_entry content cs with
          | Some node =>
              Ok (replace_entry version (Dir (remove_entry content cs)) es
                    ++ [(content, node)])
          | None => Raise FileNotFoundError
          end
      | _ => Raise FileNotFoundError
      end
  end.

(** [shutil.rmtree(dir/name)] without [ignore_errors]. *)
Definition rmtree (name : string) (es : entries) : result entries :=
  match lookup_entry name es with
  | Some (Dir _) => Ok (remove_entry name es)
  | _ => Raise FileNotFoundError
  end.

End Fs.

(** ** [VersionManagement] *)

Record Namespace : Type := {
  num_releases : Z;
  default_branch_name : string;
  exclude_default_branch : bool;
  build_dir : string
}.

Inductive level : Type := INFO | WARNING | DEBUG.

Record VersionManagement : Type := {
  args : Namespace;
  docsdir : PurePath.t;
  _existing_versions : list string;
  _non_existing_versions : list string;
  last_n_versions : list string;
  latest_version : string
}.

(** [__init__], given the release list that [get_last_n_versions] fetched. *)
Definition VersionManagement_init (a : Namespace) (dir : PurePath.t)
    (releases : list string) : result VersionManagement :=
  match releases with
  | [] => Raise IndexError
  | latest :: _ =>
      Ok {| args := a; docsdir := dir;
            _existing_versions := []; _non_existing_versions := [];
            last_n_versions := releases; latest_version := latest |}
  end.

Definition dropdown_versions_in_order (self : VersionManagement) : list string :=
  (if negb (exclude_default_branch (args self))
   then [default_branch_name (args self)] else [])
  ++ last_n_versions self.

(** [part0.startswith(('master', 'main', 'v'))] *)
Definition versioned_name (part0 : string) : bool :=
  Py.startswith part0 "master" || Py.startswith part0 "main"
  || Py.startswith part0 "v".

(** The guard of the loop over [rglob]. *)
Definition first_part_is_versioned (docsdir html_filepath : PurePath.t) : result bool :=
  rel ← PurePath.relative_to html_filepath docsdir;
  part0 ← PurePath.part rel 0;
  Ok (versioned_name part0).

(** The loop over [rglob]: a path whose guard holds is passed over. *)
Fixpoint skip_versioned (docsdir : PurePath.t) (paths : list PurePath.t)
    : result (list PurePath.t) :=
  match paths with
  | [] => Ok []
  | html_filepath :: paths' =>
      match first_part_is_versioned docsdir html_filepath with
      | Raise e => Raise e
      | Ok versioned =>
          match skip_versioned docsdir paths' with
          | Raise e => Raise e
          | Ok rest => Ok (if versioned : bool then rest else html_filepath :: rest)
          end
      end
  end.

(** [get_html_filepaths]: the paths the generator yields, in order. The tree
    found at [docsdir] is [root]. A version stands for the root entry of its
    name, which is what [Path(docsdir, version)] denotes when the name is the
    name of a directory entry ([valid_segment]). *)
Definition get_html_filepaths (docsdir : PurePath.t) (root : fsnode)
    (version_in_dir latest_version : string) : result (list PurePath.t) :=
  if decide (version_in_dir = latest_version) then
    skip_versioned docsdir (fmap (app docsdir) (Fs.rglob_html root))
  else
    match Fs.node_at root [version_in_dir] with
    | Some (Dir es) =>
        Ok (fmap (λ p, docsdir ++ version_in_dir :: p) (Fs.rglob_html (Dir es)))
    | _ => Ok []
    end.

(** [get_versions_status]: one round of the scan over [os.listdir]. *)
Definition scan_entry (self : VersionManagement) (es : Fs.entries)
    (existing : list string) (dir : string) : list string :=
  let a := args self in
  let num_releases :=
    if negb (exclude_default_branch a) then (num_releases a + 1)%Z else 0%Z in
  if Fs.isdir es dir && bool_decide (Z.of_nat (length existing) < num_releases)%Z then
    if negb (exclude_default_branch a) && bool_decide (dir = default_branch_name a)
    then existing ++ [dir]
    else if Py.startswith dir "v" then existing ++ [dir]
    else existing
  else existing.

Definition relevant_versions (self : VersionManagement) : gset string :=
  let relevant : gset string := list_to_set (last_n_versions self) in
  if negb (exclude_default_branch (args self))
  then relevant ∪ {[ default_branch_name (args self) ]}
  else relevant.

(** The list built from the set difference comes in no specified order; the
    model takes the order of [elements]. *)
Definition get_versions_status (self : VersionManagement) (es : Fs.entries)
    : VersionManagement :=
  let existing := fold_left (scan_entry self es) (Fs.listdir es) (_existing_versions self) in
  let missing : gset string := relevant_versions self ∖ list_to_set existing in
  {| args := args self; docsdir := docsdir self;
     _existing_versions := existing;
     _non_existing_versions := elements missing;
     last_n_versions := last_n_versions self;
     latest_version := latest_version self |}.

(** The capped scan as the specification words it: at most [n] directories,
    one more when the default branch is included. *)
Definition scan_cap (a : Namespace) : Z :=
  (num_releases a + (if exclude_default_branch a then 0 else 1))%Z.

(** [move_latest_version_to_root]: the entries of [docsdir] afterwards and the
    records the logger received. The latest version stands for the root entry
    of its name, which is what [os.path.join(docsdir, latest)] denotes when
    the name is the name of a directory entry ([valid_segment]). *)
Definition remove_old_content (content : string) (es : Fs.entries) : Fs.entries :=
  if Fs.isfile es content then Fs.remove_entry content es
  else if Fs.isdir es content then Fs.remove_entry content es
  else es.

Fixpoint move_contents (version : string) (contents : list string) (es : Fs.entries)
    : result Fs.entries :=
  match contents with
  | [] => Ok es
  | content :: contents' =>
      match Fs.move_into_parent version content (remove_old_content content es) with
      | Raise e => Raise e
      | Ok es' => move_contents version contents' es'
      end
  end.

Definition move_latest_version_to_root (self : VersionManagement) (es : Fs.entries)
    : result (Fs.entries * list (level * string))%type :=
  match Fs.lookup_entry (latest_version self) es with
  | Some (Dir cs) =>
      es' ← move_contents (latest_version self) (Fs.listdir cs) es;
      es'' ← Fs.rmtree (latest_version self) es';
      Ok (es'', [])
  | _ =>
      Ok (es, [(WARNING,
                "The latest version " +:+ latest_version self
                +:+ " doesn't exist, please build first!")])
  end.

(** ** [build_versions]

    The version-control tool, the builder and the copy of the build output act
    on a world [W] that the orchestration only threads through. *)
Section Build.

Context {W Tag : Type}.

(** A step leaves a world behind whether it returns or raises. *)
Definition action (A : Type) : Type := W → (W * result A)%type.

Variable log_info : string → W → W.
Variable getcwd : W → string.
(** [CheckoutBranch.__enter__] and [__exit__] *)
Variable checkout_enter : string → string → action Tag.
Variable checkout_exit : Tag → action unit.
(** [shutil.rmtree(..., ignore_errors=True)] never raises. *)
Variable cleanup_version_directory : string → string → W → W.
Variable build_local_only : string → action unit.
Variable recreate_version_directory : string → Tag → string → string → action unit.

(** The body of the [with] statement. *)
Definition build_body (gh_page_dir build_dir version : string) (tag : Tag)
    : action unit := λ w,
  let w1 := cleanup_version_directory gh_page_dir version w in
  match build_local_only version w1 with
  | (w2, Raise e) => (w2, Raise e)
  | (w2, Ok _) => recreate_version_directory gh_page_dir tag version build_dir w2
  end.

(** [with CheckoutBranch(...) as tag: body]. A failure of [__enter__]
    propagates without [__exit__]; after the body [__exit__] runs, does not
    swallow the body's exception, and may raise itself. *)
Definition with_checkout (repodir version : string) (body : Tag → action unit)
    : action unit := λ w,
  match checkout_enter repodir version w with
  | (w1, Raise e) => (w1, Raise e)
  | (w1, Ok tag) =>
      match body tag w1 with
      | (w2, r) =>
          match checkout_exit tag w2 with
          | (w3, Raise e') => (w3, Raise e')
          | (w3, Ok _) => (w3, r)
          end
      end
  end.

Definition build_version (repodir gh_page_dir build_dir version : string)
    : action unit := λ w,
  with_checkout repodir version (build_body gh_page_dir build_dir version)
    (log_info ("Asked to rebuild version `" +:+ version +:+ "`, " +:+ getcwd w) w).

(** The [for] loop. *)
Fixpoint build_versions (versions : list string)
    (repodir gh_page_dir build_dir : string) : action unit := λ w,
  match versions with
  | [] => (w, Ok ())
  | version :: versions' =>
      match build_version repodir gh_page_dir build_dir version w with
      | (w', Raise e) => (w', Raise e)
      | (w', Ok _) => build_versions versions' repodir gh_page_dir build_dir w'
      end
  end.

End Build.

(** A world that records the calls made on it; the builder fails for the
    versions listed in [broken]. *)
Module Trace.

Inductive call : Type :=
  | Info (msg : string)
  | Checkout (version : string)
  | Release (version : string)
  | Cleanup (version : string)
  | Build (version : string)
  | Recreate (version : string).

Global Instance call_eq_dec : EqDecision call.
Proof. solve_decision. Defined.

Definition world : Type := list call.

Definition log_info (msg : string) (w : world) : world := w ++ [Info msg].
Definition getcwd (w : world) : string := "/tmp/docs".
Definition checkout_enter (repodir version : string) (w : world)
    : (world * result string)%type := (w ++ [Checkout version], Ok version).
Definition checkout_exit (tag : string) (w : world) : (world * result unit)%type :=
  (w ++ [Release tag], Ok ()).
Definition cleanup (gh_page_dir version : string) (w : world) : world :=
  w ++ [Cleanup version].
Definition build (broken : list string) (version : string) (w : world)
    : (world * result unit)%type :=
  (w ++ [Build version],
   if bool_decide (version ∈ broken) then Raise CalledProcessError else Ok ()).
Definition recreate (gh_page_dir tag version build_dir : string) (w : world)
    : (world * result unit)%type := (w ++ [Recreate version], Ok ()).

Definition run (broken versions : list string) : (world * result unit)%type :=
  build_versions log_info getcwd checkout_enter checkout_exit cleanup (build broken)
    recreate versions "repo" "gh-pages" "_build/dirhtml" [].

End Trace.

(** A failure stays within its version: every version of the list is still
    checked out. *)
Definition failures_isolated (broken versions : list string) : Prop :=
  ∀ version, version ∈ versions → Trace.Checkout version ∈ (Trace.run broken versions).1.

(** The text of a run of directories, each followed by the separator. *)
Fixpoint dirs_str (l : list string) : string :=
  match l with
  | [] => ""
  | s :: l' => s +:+ "/" +:+ dirs_str l'
  end.

Definition slash_free (s : string) : Prop := Py.str_mem "/" s = false.

(** A non-empty segment without separator; [".."] is one. *)
Definition plain_segment (s : string) : Prop := s ≠ "" ∧ slash_free s.

(** ** Document enumeration as the specification words it *)

(** A document below [root]: a non-empty relative path that leads to an entry
    whose name matches ['*.html']. *)
Definition is_document (root : fsnode) (rel : PurePath.t) : Prop :=
  rel ≠ [] ∧ is_Some (Fs.node_at root rel)
  ∧ Fs.matches_html (PurePath.name rel) = true.

(** The paths the generator keeps for the latest version. *)
Definition kept (rel : PurePath.t) : bool :=
  match rel with
  | [] => false
  | part0 :: _ => negb (versioned_name part0)
  end.

(** Membership by the names of the tracked versions. *)
Definition belongs_by_tracked_names (tracked : list string)
    (versionInDir latestVersion : string) (rel : PurePath.t) : Prop :=
  if decide (versionInDir = latestVersion)
  then ∃ part0 rest, rel = part0 :: rest ∧ part0 ∉ tracked
  else ∃ rest, rel = versionInDir :: rest ∧ rest ≠ [].

(** Membership by the prefix of the first part. *)
Definition belongs_by_prefix
    (versionInDir latestVersion : string) (rel : PurePath.t) : Prop :=
  if decide (versionInDir = latestVersion)
  then ∃ part0 rest, rel = part0 :: rest ∧ versioned_name part0 = false
  else ∃ rest, rel = versionInDir :: rest ∧ rest ≠ [].

(** The generator yields exactly the documents that [belongs] selects. *)
Definition enumerates (belongs : PurePath.t → Prop)
    (docsdir : PurePath.t) (root : fsnode)
    (version_in_dir latest_version : string) : Prop :=
  ∃ paths,
    get_html_filepaths docsdir root version_in_dir latest_version = Ok paths
    ∧ (∀ path, path ∈ paths → ∃ rel, path = docsdir ++ rel)
    ∧ ∀ rel, docsdir ++ rel ∈ paths ↔ is_document root rel ∧ belongs rel.

(** ** The options of the version selector

    The inner loop of [update_dropdown_options]: one [option] tag per version
    of [dropdown_versions_in_order]. *)

(** A tag made by [html.new_tag]: its name, its attributes in the order they
    were given, and its [string]. *)
Record Tag : Type := {
  tag_name : string;
  tag_attrs : list (string * string);
  tag_string : string
}.

Definition new_option (self : VersionManagement) (html_filepath : PurePath.t)
    (version_in_dir version_in_dropdown : string) : result Tag :=
  value ← get_value_for_option (docsdir self) html_filepath
            version_in_dropdown version_in_dir (latest_version self);
  Ok {| tag_name := "option";
        tag_attrs :=
          [("value", value)]
          ++ (if is_option_selected version_in_dropdown version_in_dir
              then [("selected", "selected")] else []);
        tag_string := get_text_for_option version_in_dropdown (latest_version self) |}.

Fixpoint new_options_for (self : VersionManagement) (html_filepath : PurePath.t)
    (version_in_dir : string) (versions : list string) : result (list Tag) :=
  match versions with
  | [] => Ok []
  | version_in_dropdown :: versions' =>
      match new_option self html_filepath version_in_dir version_in_dropdown with
      | Raise e => Raise e
      | Ok option =>
          match new_options_for self html_filepath version_in_dir versions' with
          | Raise e => Raise e
          | Ok options => Ok (option :: options)
          end
      end
  end.

Definition new_dropdown_options (self : VersionManagement)
    (html_filepath : PurePath.t) (version_in_dir : string) : result (list Tag) :=
  new_options_for self html_filepath version_in_dir (dropdown_versions_in_order self).

(** The attribute [selected] of a tag. *)
Definition has_selected (option : Tag) : bool :=
  bool_decide (("selected", "selected") ∈ tag_attrs option).

(** ** The slot of a version in the published tree

    [cleanup_version_directory] and [recreate_version_directory] act on the
    entries of [gh_page_docs_dir]; the build output is the node found at
    [tag.docsdir/build_dir] in the checkout, if any. The version stands for
    the root entry of its name, which is what
    [os.path.join(gh_page_docs_dir, version)] denotes when the name is the
    name of a directory entry ([valid_segment]). *)
Module GhPages.

(** [shutil.rmtree(path, ignore_errors=True)]: a directory is removed; a
    missing path or a plain file makes [rmtree] fail, the failure is ignored
    and nothing changes. *)
Definition cleanup_version_directory (version : string) (es : Fs.entries) : Fs.entries :=
  if Fs.isdir es version then Fs.remove_entry version es else es.

(** What [shutil.copytree(src, dst)] does: it lists [src] first
    ([FileNotFoundError], [NotADirectoryError]), then creates [dst], which
    must not exist ([FileExistsError]), then copies the entries. *)
Inductive copied : Type :=
  | Copied (es : Fs.entries)
  | SourceMissing
  | SourceNotADirectory
  | DestinationExists.

Definition recreate_version_directory (build_output : option fsnode)
    (version : string) (es : Fs.entries) : copied :=
  match build_output with
  | None => SourceMissing
  | Some File => SourceNotADirectory
  | Some (Dir built) =>
      match Fs.lookup_entry version es with
      | Some _ => DestinationExists
      | None => Copied (es ++ [(version, Dir built)])
      end
  end.

(** The two steps as [build_versions] runs them around the build. *)
Definition rebuild_slot (build_output : option fsnode) (version : string)
    (es : Fs.entries) : copied :=
  recreate_version_directory build_output version
    (cleanup_version_directory version es).

End GhPages.

(** ** Sample inputs *)

Definition tmp_abc : PurePath.t := ["/"; "tmp"; "abc"].

Definition releases_only : Namespace :=
  {| num_releases := 3; default_branch_name := "master";
     exclude_default_branch := true; build_dir := "_build/dirhtml" |}.

Definition manager_releases_only : VersionManagement :=
  {| args := releases_only; docsdir := tmp_abc;
     _existing_versions := []; _non_existing_versions := [];
     last_n_versions := ["v1.2.4"; "v1.2.3"]; latest_version := "v1.2.4" |}.

Definition tree_with_v123 : Fs.entries :=
  [("index.html", File); ("v1.2.3", Dir [("index.html", File)])].

Definition manager_with_default : VersionManagement :=
  {| args := {| num_releases := 1; default_branch_name := "master";
                exclude_default_branch := false; build_dir := "_build/dirhtml" |};
     docsdir := tmp_abc;
     _existing_versions := []; _non_existing_versions := [];
     last_n_versions := ["v1.2.4"]; latest_version := "v1.2.4" |}.

Definition crowded_tree : Fs.entries :=
  [("v1.2.1", Dir []); ("master", Dir []); ("v1.2.2", Dir []);
   ("v1.2.3", Dir []); ("index.html", File)].

Definition tree_with_v124 : Fs.entries :=
  [("index.html", File);
   ("v1.2.4", Dir [("index.html", File); ("api", Dir [("index.html", File)])]);
   ("api", File)].

Definition tree_with_old_version : Fs.entries :=
  [("index.html", File);
   ("v1.2.3", Dir [("index.html", File)]);
   ("v1.2.4", Dir [("index.html", File); ("api", Dir [("index.html", File)])]);
   ("CNAME", File)].

Definition tree_with_nested_version : Fs.entries :=
  [("index.html", File);
   ("v1.2.4", Dir [("index.html", File); ("v1.2.4", Dir [])])].


Definition promoted_tree : fsnode :=
  Dir [("index.html", File);
       ("versions", Dir [("index.html", File)]);
       ("master", Dir [("index.html", File); ("api", Dir [("index.html", File)])])].

(** * Properties *)

(** ** Strings *)

Section StringFacts.

Lemma append_nil_r (s : string) : s +:+ "" = s.
Proof. induction s as [|c s IH]; simpl; [done | by rewrite IH]. Qed.

Lemma append_cons (c : ascii) (a b : string) :
  String c a +:+ b = String c (a +:+ b).
Proof. reflexivity. Qed.

Lemma append_assoc (a b c : string) : (a +:+ b) +:+ c = a +:+ b +:+ c.
Proof. induction a as [|x a IH]; simpl; [done | by rewrite IH]. Qed.

Lemma str_mem_slash_index : Py.str_mem "/" "index.html" = false.
Proof. reflexivity. Qed.

Lemma rstrip_app_all_in (chars a b : string) :
  all_in chars b = true → Py.rstrip chars (a +:+ b) = Py.rstrip chars a.
Proof.
  intros Hb. induction a as [|c a IH]; simpl.
  - induction b as [|c b IHb]; simpl; [done |].
    simpl in Hb. apply andb_true_iff in Hb as [Hc Hb].
    by rewrite (IHb Hb), Hc.
  - by rewrite IH.
Qed.

Lemma rstrip_ends_outside (chars s : string) :
  ends_outside chars (Py.rstrip chars s) = true.
Proof.
  induction s as [|c s IH]; simpl; [done |].
  destruct (Py.rstrip chars s) as [|d r] eqn:E.
  - destruct (Py.str_mem c chars) eqn:Hc; simpl; [done | by rewrite Hc].
  - exact IH.
Qed.

Lemma rstrip_fixed (chars s : string) :
  ends_outside chars s = true → Py.rstrip chars s = s.
Proof.
  induction s as [|c s IH]; simpl; [done |].
  destruct s as [|d s].
  - simpl. intros Hc. apply negb_true_iff in Hc. by rewrite Hc.
  - intros H. rewrite (IH H). done.
Qed.

Lemma rstrip_decompose (chars s : string) :
  ∃ suffix, s = Py.rstrip chars s +:+ suffix ∧ all_in chars suffix = true.
Proof.
  induction s as [|c s (suf & Hs & Hall)]; simpl.
  - by exists "".
  - destruct (Py.rstrip chars s) as [|d r] eqn:E.
    + destruct (Py.str_mem c chars) eqn:Hc.
      * exists (String c suf). simpl in *. subst s. by rewrite Hc, Hall.
      * exists suf. simpl in *. by subst s.
    + exists suf. split; [| done]. simpl in *. by rewrite <- Hs.
Qed.

Lemma ends_outside_mono (chars1 chars2 s : string) :
  (∀ c, Py.str_mem c chars2 = true → Py.str_mem c chars1 = true) →
  ends_outside chars1 s = true → ends_outside chars2 s = true.
Proof.
  intros Hsub. induction s as [|c s IH]; simpl; [done |].
  destruct s as [|d s]; [| exact IH].
  intros H. apply negb_true_iff in H. apply negb_true_iff.
  destruct (Py.str_mem c chars2) eqn:E; [| done].
  apply Hsub in E. congruence.
Qed.

Lemma dot_html_subset (c : ascii) :
  Py.str_mem c ".html" = true → Py.str_mem c "index.html" = true.
Proof.
  simpl.
  repeat match goal with
         | |- context [Ascii.eqb c ?d] => destruct (Ascii.eqb c d); try done
         end.
Qed.

(** The second [rstrip] finds nothing left to remove. *)
Lemma trim_suffix_rstrip (value : string) :
  trim_suffix value = Py.rstrip "index.html" value.
Proof.
  unfold trim_suffix. apply rstrip_fixed.
  apply (ends_outside_mono "index.html"); [apply dot_html_subset |].
  apply rstrip_ends_outside.
Qed.

Lemma rstrip_keep (chars a b : string) (c : ascii) :
  Py.str_mem c chars = false →
  Py.rstrip chars (a +:+ String c b) = a +:+ String c (Py.rstrip chars b).
Proof.
  intros Hc. induction a as [|x a IH]; simpl.
  - destruct (Py.rstrip chars b); [by rewrite Hc | done].
  - rewrite IH. destruct a; simpl; done.
Qed.

End StringFacts.

(** ** The resolver *)

Section Resolver.

Lemma relative_to_app (docsdir rel : PurePath.t) :
  PurePath.relative_to (docsdir ++ rel) docsdir = Ok rel.
Proof.
  induction docsdir as [|d docsdir IH]; simpl; [done |].
  by rewrite decide_True.
Qed.

Lemma replace_from_collapse (s : string) :
  Py.replace_from "//" "/" 0 s = collapse_dslash s
  ∧ ∀ c, Py.replace_from "//" "/" 0 (String c s) = collapse_dslash (String c s).
Proof.
  induction s as [|a s [IH1 IH2]].
  - split; [done |]. intros c. simpl.
    rewrite andb_false_r. by destruct (Ascii.eqb c "/").
  - split; [apply IH2 |]. intros c.
    change (Py.replace_from "//" "/" 0 (String c (String a s))) with
      (if Py.startswith (String c (String a s)) "//"
       then "/" +:+ Py.replace_from "//" "/" 1 (String a s)
       else String c (Py.replace_from "//" "/" 0 (String a s))).
    rewrite IH2.
    change (Py.replace_from "//" "/" 1 (String a s))
      with (Py.replace_from "//" "/" 0 s).
    rewrite IH1.
    change (collapse_dslash (String c (String a s))) with
      (if Ascii.eqb c "/" then
         if Ascii.eqb a "/" then String "/" (collapse_dslash s)
         else String c (collapse_dslash (String a s))
       else String c (collapse_dslash (String a s))).
    simpl Py.startswith. rewrite andb_true_r.
    rewrite (Ascii.eqb_sym "/" c), (Ascii.eqb_sym "/" a).
    by destruct (Ascii.eqb c "/"), (Ascii.eqb a "/").
Qed.

Lemma replace_collapse (s : string) : Py.replace "//" "/" s = collapse_dslash s.
Proof. apply replace_from_collapse. Qed.

Lemma str_mul_replicate (s : string) (n : nat) :
  Py.str_mul s (Z.of_nat n) = String.concat "" (replicate n s).
Proof.
  unfold Py.str_mul. rewrite Nat2Z.id.
  induction n as [|n IH]; [done |].
  simpl Nat.iter. rewrite IH.
  destruct n as [|n]; simpl; [by rewrite append_nil_r | done].
Qed.

Lemma option_value_other_version (docsdir rel : PurePath.t)
    (version_in_dropdown version_in_dir latest_version : string) :
  rel ≠ [] →
  version_in_dropdown ≠ version_in_dir →
  option_value docsdir (docsdir ++ rel)
    version_in_dropdown version_in_dir latest_version
  = Ok (resolve_other_version rel version_in_dropdown version_in_dir latest_version).
Proof.
  intros Hrel Hne. unfold option_value, resolve_other_version.
  rewrite relative_to_app. simpl.
  rewrite decide_False by congruence.
  rewrite replace_collapse.
  replace (Z.of_nat (length rel) - 1)%Z with (Z.of_nat (length rel - 1))
    by (destruct rel; [done | simpl; lia]).
  rewrite str_mul_replicate.
  replace (drop 1 rel) with (tail rel) by (by destruct rel).
  do 3 f_equal.
  destruct (decide (version_in_dropdown = latest_version)).
  - by rewrite decide_False by tauto.
  - by rewrite decide_True.
Qed.

End Resolver.

(** C1. For a document path with at least one segment below the tree root and
    a dropdown version different from the document's own, the value before the
    trim is [depth] repetitions of ["../"] (one less than the number of
    segments of the original relative path), then the dropdown version (or
    nothing when it is the latest), then ["/"], then the relative path
    (unchanged when the document's version is the latest, otherwise without
    its leading segment, the empty path printing as ["."]), with doubled
    separators collapsed in one pass. *)
Theorem option_value_is_resolve_other_version
    (docsdir rel : PurePath.t)
    (version_in_dropdown version_in_dir latest_version : string) :
  rel ≠ [] →
  version_in_dropdown ≠ version_in_dir →
  option_value docsdir (docsdir ++ rel)
    version_in_dropdown version_in_dir latest_version
  = Ok (resolve_other_version rel version_in_dropdown version_in_dir latest_version).
Proof. apply option_value_other_version. Qed.

Lemma option_value_is_resolve_other_version_witness :
  option_value tmp_abc (tmp_abc ++ ["v1.2.3"; "fundamentals"; "document"; "index.html"])
    "master" "v1.2.3" "v1.2.4"
  = Ok "../../../master/fundamentals/document/index.html".
Proof.
  exact (option_value_is_resolve_other_version tmp_abc
           ["v1.2.3"; "fundamentals"; "document"; "index.html"]
           "master" "v1.2.3" "v1.2.4" ltac:(discriminate) ltac:(discriminate)).
Defined.

(** C2. The last step of [get_value_for_option] removes from the right end of
    the value the longest run of characters of the set
    [{i,n,d,e,x,.,h,t,m,l}]: the result followed by a run of such characters
    is the value, and the result is empty or ends outside the set. The two
    successive [rstrip] calls amount to the first one. It is a trim by
    character class and not a removal of the literal suffix: a value that
    ends in [annex.html] loses [nnex.html]. *)
Theorem trim_suffix_is_character_class_trim :
  (∀ docsdir html_filepath version_in_dropdown version_in_dir latest_version,
     get_value_for_option docsdir html_filepath
       version_in_dropdown version_in_dir latest_version
     = (value ← option_value docsdir html_filepath
                  version_in_dropdown version_in_dir latest_version;
        Ok (Py.rstrip ".html" (Py.rstrip "index.html" value))))
  ∧ (∀ value,
       trim_suffix value = Py.rstrip trim_set value
       ∧ ends_outside trim_set (trim_suffix value) = true
       ∧ ∃ suffix, value = trim_suffix value +:+ suffix
                   ∧ all_in trim_set suffix = true)
  ∧ trim_suffix "docs/annex.html" = "docs/a"
  ∧ remove_suffix ".html" (remove_suffix "index.html" "docs/annex.html") = "docs/annex"
  ∧ get_value_for_option tmp_abc (tmp_abc ++ ["docs"; "annex.html"])
      "v1.2.3" "v1.2.3" "v1.2.3" = Ok "docs/a".
Proof.
  split_and!; try reflexivity.
  intros value. rewrite trim_suffix_rstrip. split_and!.
  - reflexivity.
  - apply rstrip_ends_outside.
  - apply rstrip_decompose.
Qed.

(** C9, as stated, fails: the document [index.html] at the promoted root,
    resolved for the promoted version itself, does not yield its own relative
    path. *)
Lemma root_document_own_version_not_its_path :
  get_value_for_option tmp_abc (tmp_abc ++ ["index.html"])
    "v1.2.3" "v1.2.3" "v1.2.3"
  ≠ Ok (PurePath.str ["index.html"]).
Proof. vm_compute. discriminate. Qed.

(** C9, amended. For a document directly at the promoted root whose name is
    not the latest version's name, resolved for the promoted version itself,
    the value before the trim is the document's own relative path, with no
    ["../"] in front, and the returned value is that path after the trailing
    trim. *)
Theorem root_document_own_version
    (docsdir : PurePath.t) (name latest_version : string) :
  name ≠ latest_version →
  option_value docsdir (docsdir ++ [name])
    latest_version latest_version latest_version
  = Ok (PurePath.str [name])
  ∧ PurePath.str [name] = name
  ∧ get_value_for_option docsdir (docsdir ++ [name])
      latest_version latest_version latest_version
    = Ok (trim_suffix name).
Proof.
  intros Hname.
  assert (option_value docsdir (docsdir ++ [name])
            latest_version latest_version latest_version = Ok name) as Hv.
  { unfold option_value. rewrite relative_to_app. simpl.
    rewrite decide_True by done. simpl.
    by rewrite decide_False. }
  unfold get_value_for_option. rewrite Hv. done.
Qed.

Lemma root_document_own_version_witness :
  option_value tmp_abc (tmp_abc ++ ["index.html"]) "v1.2.3" "v1.2.3" "v1.2.3"
  = Ok "index.html"
  ∧ get_value_for_option tmp_abc (tmp_abc ++ ["index.html"])
      "v1.2.3" "v1.2.3" "v1.2.3" = Ok "".
Proof.
  pose proof (root_document_own_version tmp_abc "index.html" "v1.2.3"
                ltac:(discriminate)) as (H1 & _ & H2).
  split; [exact H1 | exact H2].
Defined.

(** C10. For a document path with at least one segment below the tree root,
    [get_value_for_option] returns, and the returned string is empty or ends
    in a character outside [{i,n,d,e,x,.,h,t,m,l}]; for [index.html] directly
    at the promoted root, resolved with the document's version, the dropdown
    version and the latest version all equal, it returns the empty string. *)
Theorem returned_value_ends_outside_trim_set
    (docsdir rel : PurePath.t)
    (version_in_dropdown version_in_dir latest_version : string) :
  rel ≠ [] →
  (∃ value,
     get_value_for_option docsdir (docsdir ++ rel)
       version_in_dropdown version_in_dir latest_version = Ok value
     ∧ ends_outside trim_set value = true)
  ∧ get_value_for_option docsdir (docsdir ++ ["index.html"])
      latest_version latest_version latest_version = Ok "".
Proof.
  intros Hrel. split.
  - assert (∃ v, option_value docsdir (docsdir ++ rel)
                   version_in_dropdown version_in_dir latest_version = Ok v)
      as [v Hv].
    { unfold option_value. rewrite relative_to_app. simpl.
      destruct rel as [|part0 rel]; [done |]. simpl.
      repeat case_decide; eauto. }
    exists (trim_suffix v). unfold get_value_for_option. rewrite Hv.
    split; [done |].
    rewrite trim_suffix_rstrip. apply rstrip_ends_outside.
  - unfold get_value_for_option, option_value.
    rewrite relative_to_app. simpl.
    rewrite decide_True by done. simpl.
    case_decide; reflexivity.
Qed.

Lemma returned_value_ends_outside_trim_set_witness :
  (∃ value,
     get_value_for_option tmp_abc
       (tmp_abc ++ ["v1.2.3"; "fundamentals"; "document"; "index.html"])
       "master" "v1.2.3" "v1.2.4" = Ok value
     ∧ ends_outside trim_set value = true)
  ∧ get_value_for_option tmp_abc (tmp_abc ++ ["index.html"])
      "v1.2.4" "v1.2.4" "v1.2.4" = Ok "".
Proof.
  exact (returned_value_ends_outside_trim_set tmp_abc
           ["v1.2.3"; "fundamentals"; "document"; "index.html"]
           "master" "v1.2.3" "v1.2.4" ltac:(discriminate)).
Defined.

(** ** The build loop *)

Section BuildFacts.

Context {W Tag : Type}.
Variable log_info : string → W → W.
Variable getcwd : W → string.
Variable checkout_enter : string → string → W → W * result Tag.
Variable checkout_exit : Tag → W → W * result unit.
Variable cleanup_version_directory : string → string → W → W.
Variable build_local_only : string → W → W * result unit.
Variable recreate_version_directory : string → Tag → string → string → W → W * result unit.

Local Abbreviation run_all :=
  (build_versions log_info getcwd checkout_enter checkout_exit
     cleanup_version_directory build_local_only recreate_version_directory).
Local Abbreviation run_one :=
  (build_version log_info getcwd checkout_enter checkout_exit
     cleanup_version_directory build_local_only recreate_version_directory).

Lemma build_versions_app (pre post : list string)
    (repodir gh_page_dir build_dir : string) (w w1 : W) :
  run_all pre repodir gh_page_dir build_dir w = (w1, Ok ()) →
  run_all (pre ++ post) repodir gh_page_dir build_dir w
  = run_all post repodir gh_page_dir build_dir w1.
Proof.
  revert w. induction pre as [|v pre IH]; intros w; simpl.
  - by intros [= ->].
  - destruct (run_one repodir gh_page_dir build_dir v w) as [w' [[]|e]]; [| done].
    apply IH.
Qed.

Lemma build_versions_failure (pre post : list string) (version : string)
    (repodir gh_page_dir build_dir : string) (w w1 w2 : W) (e : exn) :
  run_all pre repodir gh_page_dir build_dir w = (w1, Ok ()) →
  run_one repodir gh_page_dir build_dir version w1 = (w2, Raise e) →
  run_all (pre ++ version :: post) repodir gh_page_dir build_dir w
  = (w2, Raise e).
Proof.
  intros Hpre Hone. rewrite (build_versions_app _ _ _ _ _ _ _ Hpre).
  simpl. by rewrite Hone.
Qed.

(** A failing builder is reached only after the checkout, and the checkout
    is released before the failure leaves the [with] statement. *)
Lemma build_failure_releases (repodir gh_page_dir build_dir version : string)
    (w w1 w2 w3 : W) (tag : Tag) (e : exn) :
  checkout_enter repodir version
    (log_info ("Asked to rebuild version `" +:+ version +:+ "`, " +:+ getcwd w) w)
  = (w1, Ok tag) →
  build_local_only version (cleanup_version_directory gh_page_dir version w1)
  = (w2, Raise e) →
  checkout_exit tag w2 = (w3, Ok ()) →
  run_one repodir gh_page_dir build_dir version w = (w3, Raise e).
Proof.
  intros Henter Hbuild Hexit.
  unfold build_version, with_checkout, build_body.
  by rewrite Henter, Hbuild, Hexit.
Qed.

(** A failing [__enter__] ends the sequence at once: nothing of the body runs
    and [__exit__] is not called. *)
Lemma build_version_enter_fails (repodir gh_page_dir build_dir version : string)
    (w w1 : W) (e : exn) :
  checkout_enter repodir version
    (log_info ("Asked to rebuild version `" +:+ version +:+ "`, " +:+ getcwd w) w)
  = (w1, Raise e) →
  run_one repodir gh_page_dir build_dir version w = (w1, Raise e).
Proof.
  intros Henter. unfold build_version, with_checkout. by rewrite Henter.
Qed.

(** A failing copy of the build output leaves the [with] statement after
    [__exit__]. *)
Lemma build_version_recreate_fails (repodir gh_page_dir build_dir version : string)
    (w w1 w2 w3 w4 : W) (tag : Tag) (e : exn) :
  checkout_enter repodir version
    (log_info ("Asked to rebuild version `" +:+ version +:+ "`, " +:+ getcwd w) w)
  = (w1, Ok tag) →
  build_local_only version (cleanup_version_directory gh_page_dir version w1)
  = (w2, Ok ()) →
  recreate_version_directory gh_page_dir tag version build_dir w2 = (w3, Raise e) →
  checkout_exit tag w3 = (w4, Ok ()) →
  run_one repodir gh_page_dir build_dir version w = (w4, Raise e).
Proof.
  intros Henter Hbuild Hcopy Hexit.
  unfold build_version, with_checkout, build_body.
  by rewrite Henter, Hbuild, Hcopy, Hexit.
Qed.

(** A failing [__exit__] raises its own exception, whatever the body did. *)
Lemma build_version_exit_fails (repodir gh_page_dir build_dir version : string)
    (w w1 w2 w3 : W) (tag : Tag) (r : result unit) (e : exn) :
  checkout_enter repodir version
    (log_info ("Asked to rebuild version `" +:+ version +:+ "`, " +:+ getcwd w) w)
  = (w1, Ok tag) →
  build_body cleanup_version_directory build_local_only recreate_version_directory
    gh_page_dir build_dir version tag w1 = (w2, r) →
  checkout_exit tag w2 = (w3, Raise e) →
  run_one repodir gh_page_dir build_dir version w = (w3, Raise e).
Proof.
  intros Henter Hbody Hexit.
  unfold build_version, with_checkout.
  by rewrite Henter, Hbody, Hexit.
Qed.

End BuildFacts.

(** C4, as stated, fails: with a builder that fails for [v1.2.4], the version
    [v1.2.3] that follows it in the list is never checked out. *)
Lemma failure_not_isolated :
  ¬ failures_isolated ["v1.2.4"] ["v1.2.4"; "v1.2.3"].
Proof.
  intros H. specialize (H "v1.2.3" ltac:(set_solver)).
  vm_compute in H.
  repeat (apply elem_of_cons in H as [H | H]; [discriminate |]).
  by apply elem_of_nil in H.
Qed.

(** C4, amended. When the versions before [version] are built, a failure in
    the sequence of [version] makes [build_versions] raise, whatever versions
    follow in the list: the failing sequence is not retried and the remaining
    versions are not processed. A failing [__enter__] of the checkout raises
    its exception with nothing else run; a failing build, or a failing copy of
    the build output, raises its exception once [__exit__] has released the
    checkout; a failing [__exit__] raises its own exception. *)
Theorem build_versions_aborts_at_first_failure {W Tag : Type}
    (log_info : string → W → W) (getcwd : W → string)
    (checkout_enter : string → string → W → W * result Tag)
    (checkout_exit : Tag → W → W * result unit)
    (cleanup_version_directory : string → string → W → W)
    (build_local_only : string → W → W * result unit)
    (recreate_version_directory : string → Tag → string → string → W → W * result unit)
    (pre post : list string) (version repodir gh_page_dir build_dir : string)
    (w w1 : W) :
  build_versions log_info getcwd checkout_enter checkout_exit cleanup_version_directory
    build_local_only recreate_version_directory
    pre repodir gh_page_dir build_dir w = (w1, Ok ()) →
  (∀ w2 e,
     checkout_enter repodir version
       (log_info ("Asked to rebuild version `" +:+ version +:+ "`, " +:+ getcwd w1) w1)
     = (w2, Raise e) →
     build_versions log_info getcwd checkout_enter checkout_exit
       cleanup_version_directory build_local_only recreate_version_directory
       (pre ++ version :: post) repodir gh_page_dir build_dir w = (w2, Raise e))
  ∧ (∀ tag w2 w3 w4 e,
       checkout_enter repodir version
         (log_info ("Asked to rebuild version `" +:+ version +:+ "`, " +:+ getcwd w1) w1)
       = (w2, Ok tag) →
       build_local_only version (cleanup_version_directory gh_page_dir version w2)
       = (w3, Raise e) →
       checkout_exit tag w3 = (w4, Ok ()) →
       build_versions log_info getcwd checkout_enter checkout_exit
         cleanup_version_directory build_local_only recreate_version_directory
         (pre ++ version :: post) repodir gh_page_dir build_dir w = (w4, Raise e))
  ∧ (∀ tag w2 w3 w4 w5 e,
       checkout_enter repodir version
         (log_info ("Asked to rebuild version `" +:+ version +:+ "`, " +:+ getcwd w1) w1)
       = (w2, Ok tag) →
       build_local_only version (cleanup_version_directory gh_page_dir version w2)
       = (w3, Ok ()) →
       recreate_version_directory gh_page_dir tag version build_dir w3
       = (w4, Raise e) →
       checkout_exit tag w4 = (w5, Ok ()) →
       build_versions log_info getcwd checkout_enter checkout_exit
         cleanup_version_directory build_local_only recreate_version_directory
         (pre ++ version :: post) repodir gh_page_dir build_dir w = (w5, Raise e))
  ∧ (∀ tag w2 w3 w4 r e,
       checkout_enter repodir version
         (log_info ("Asked to rebuild version `" +:+ version +:+ "`, " +:+ getcwd w1) w1)
       = (w2, Ok tag) →
       build_body cleanup_version_directory build_local_only
         recreate_version_directory gh_page_dir build_dir version tag w2 = (w3, r) →
       checkout_exit tag w3 = (w4, Raise e) →
       build_versions log_info getcwd checkout_enter checkout_exit
         cleanup_version_directory build_local_only recreate_version_directory
         (pre ++ version :: post) repodir gh_page_dir build_dir w = (w4, Raise e)).
Proof.
  intros Hpre. split_and!.
  - intros w2 e Henter.
    eapply build_versions_failure; [exact Hpre |].
    by apply build_version_enter_fails.
  - intros tag w2 w3 w4 e Henter Hbuild Hexit.
    eapply build_versions_failure; [exact Hpre |].
    by eapply build_failure_releases.
  - intros tag w2 w3 w4 w5 e Henter Hbuild Hcopy Hexit.
    eapply build_versions_failure; [exact Hpre |].
    by eapply build_version_recreate_fails.
  - intros tag w2 w3 w4 r e Henter Hbody Hexit.
    eapply build_versions_failure; [exact Hpre |].
    by eapply build_version_exit_fails.
Qed.

Lemma build_versions_aborts_at_first_failure_witness :
  Trace.run ["v1.2.4"] (["master"] ++ "v1.2.4" :: ["v1.2.3"])
  = ([Trace.Info "Asked to rebuild version `master`, /tmp/docs";
      Trace.Checkout "master"; Trace.Cleanup "master"; Trace.Build "master";
      Trace.Recreate "master"; Trace.Release "master";
      Trace.Info "Asked to rebuild version `v1.2.4`, /tmp/docs";
      Trace.Checkout "v1.2.4"; Trace.Cleanup "v1.2.4"; Trace.Build "v1.2.4";
      Trace.Release "v1.2.4"],
     Raise CalledProcessError).
Proof.
  unfold Trace.run.
  destruct (build_versions_aborts_at_first_failure
              Trace.log_info Trace.getcwd Trace.checkout_enter Trace.checkout_exit
              Trace.cleanup (Trace.build ["v1.2.4"]) Trace.recreate
              ["master"] ["v1.2.3"] "v1.2.4" "repo" "gh-pages" "_build/dirhtml"
              [] _ eq_refl) as (_ & Hbuild & _).
  eapply Hbuild; reflexivity.
Defined.

(** ** The version status scan *)

Section StatusFacts.

(** With the default branch excluded the bound of the scan is [0], so the
    scan records nothing. *)
Lemma scan_entry_excluded (self : VersionManagement) (es : Fs.entries)
    (existing : list string) (dir : string) :
  exclude_default_branch (args self) = true →
  scan_entry self es existing dir = existing.
Proof.
  intros Hex. unfold scan_entry. rewrite Hex. simpl.
  rewrite bool_decide_eq_false_2 by lia.
  by rewrite andb_false_r.
Qed.

Lemma scan_excluded (self : VersionManagement) (es : Fs.entries) :
  exclude_default_branch (args self) = true →
  _existing_versions (get_versions_status self es) = _existing_versions self.
Proof.
  intros Hex. unfold get_versions_status. simpl.
  generalize (Fs.listdir es) as names, (_existing_versions self) as acc.
  induction names as [|dir names IH]; intros acc; simpl; [done |].
  by rewrite scan_entry_excluded, IH.
Qed.

(** With the default branch included the bound of the scan is the one the
    specification names. *)
Lemma scan_entry_included (self : VersionManagement) (es : Fs.entries)
    (existing : list string) (dir : string) :
  exclude_default_branch (args self) = false →
  scan_entry self es existing dir
  = if Fs.isdir es dir
       && bool_decide (Z.of_nat (length existing) < scan_cap (args self))%Z
       && (bool_decide (dir = default_branch_name (args self))
           || Py.startswith dir "v")
    then existing ++ [dir] else existing.
Proof.
  intros Hin. unfold scan_entry, scan_cap. rewrite Hin. simpl.
  destruct (Fs.isdir es dir), (bool_decide (_ < _)%Z),
    (bool_decide (dir = _)), (Py.startswith dir "v"); done.
Qed.

Lemma missing_is_difference (self : VersionManagement) (es : Fs.entries) (v : string) :
  v ∈ _non_existing_versions (get_versions_status self es)
  ↔ v ∈ relevant_versions self
    ∧ v ∉ _existing_versions (get_versions_status self es).
Proof.
  unfold get_versions_status. simpl.
  rewrite elem_of_elements, elem_of_difference, elem_of_list_to_set. done.
Qed.

End StatusFacts.

(** C5, at the failing input: three releases asked for, the default branch
    excluded, [v1.2.4] and [v1.2.3] tracked and [v1.2.3] present as a
    directory. The specification's bound of the scan is [3], yet the scan
    records no existing version and reports [v1.2.3] as missing. *)
Theorem status_scan_records_nothing_without_default_branch :
  scan_cap (args manager_releases_only) = 3%Z
  ∧ Fs.isdir tree_with_v123 "v1.2.3" = true
  ∧ _existing_versions (get_versions_status manager_releases_only tree_with_v123) = []
  ∧ "v1.2.3" ∈ _non_existing_versions
                 (get_versions_status manager_releases_only tree_with_v123).
Proof.
  split_and!; [reflexivity | reflexivity | |].
  - by rewrite scan_excluded.
  - apply missing_is_difference. rewrite scan_excluded by done.
    split; [| apply not_elem_of_nil].
    unfold relevant_versions. simpl. set_solver.
Qed.

(** ** Promotion of the latest version *)

(** C7. The latest version's name being the name of a directory entry (so
    that joining it to [docsdir] names one entry of the tree root): when the
    tree has no directory of that name, [move_latest_version_to_root] returns
    without raising, the logger receives one warning, and the entries of the
    tree are the ones it started from. *)
Theorem promotion_skipped_without_latest_directory
    (self : VersionManagement) (es : Fs.entries) :
  valid_segment (latest_version self) →
  Fs.isdir es (latest_version self) = false →
  move_latest_version_to_root self es
  = Ok (es, [(WARNING,
              "The latest version " +:+ latest_version self
              +:+ " doesn't exist, please build first!")]).
Proof.
  intros _. unfold Fs.isdir, move_latest_version_to_root.
  destruct (Fs.lookup_entry (latest_version self) es) as [[|cs]|]; done.
Qed.

Lemma promotion_skipped_without_latest_directory_witness :
  move_latest_version_to_root manager_releases_only tree_with_v123
  = Ok (tree_with_v123,
        [(WARNING, "The latest version v1.2.4 doesn't exist, please build first!")]).
Proof.
  exact (promotion_skipped_without_latest_directory
           manager_releases_only tree_with_v123
           ltac:(repeat split; discriminate) eq_refl).
Defined.

Section EntryFacts.

Implicit Types (es cs : Fs.entries) (name : string) (node : fsnode).

Lemma lookup_entry_app name es es2 :
  Fs.lookup_entry name (es ++ es2)
  = match Fs.lookup_entry name es with
    | Some node => Some node
    | None => Fs.lookup_entry name es2
    end.
Proof.
  induction es as [|[n node] es IH]; simpl; [done |].
  case_decide; done.
Qed.

Lemma lookup_remove_eq name es :
  Fs.lookup_entry name (Fs.remove_entry name es) = None.
Proof.
  unfold Fs.remove_entry.
  induction es as [|[n node] es IH]; [done |].
  rewrite filter_cons. simpl. case_decide; [| done].
  simpl. by rewrite decide_False.
Qed.

Lemma lookup_remove_ne name other es :
  name ≠ other →
  Fs.lookup_entry name (Fs.remove_entry other es) = Fs.lookup_entry name es.
Proof.
  intros Hne. unfold Fs.remove_entry.
  induction es as [|[n node] es IH]; [done |].
  rewrite filter_cons. simpl.
  destruct (decide (n ≠ other)) as [Hn | Hn]; simpl; rewrite IH; [done |].
  apply dec_stable in Hn. subst n. by rewrite decide_False.
Qed.

Lemma lookup_replace_eq name node es :
  is_Some (Fs.lookup_entry name es) →
  Fs.lookup_entry name (Fs.replace_entry name node es) = Some node.
Proof.
  unfold Fs.replace_entry.
  induction es as [|[n node'] es IH]; csimpl.
  - by intros [? ?].
  - case_decide as Hn; csimpl.
    + intros _. by rewrite decide_True.
    + intros H. rewrite decide_False by done. by apply IH.
Qed.

Lemma lookup_replace_ne name other node es :
  name ≠ other →
  Fs.lookup_entry name (Fs.replace_entry other node es) = Fs.lookup_entry name es.
Proof.
  intros Hne. unfold Fs.replace_entry.
  induction es as [|[n node'] es IH]; csimpl; [done |].
  case_decide as Hn; csimpl.
  - subst n. rewrite !decide_False by done. apply IH.
  - rewrite IH. done.
Qed.

Lemma lookup_entry_listdir name node es :
  Fs.lookup_entry name es = Some node → name ∈ Fs.listdir es.
Proof.
  induction es as [|[n node'] es IH]; simpl; [done |].
  case_decide as Hn.
  - subst n. intros _. apply elem_of_cons. by left.
  - intros H. apply elem_of_cons. right. by apply IH.
Qed.

Lemma listdir_lookup_entry name es :
  name ∈ Fs.listdir es → is_Some (Fs.lookup_entry name es).
Proof.
  induction es as [|[n node'] es IH]; simpl.
  - intros H. by apply elem_of_nil in H.
  - intros H. case_decide as Hn; [eauto |].
    apply elem_of_cons in H as [-> | H]; [done | by apply IH].
Qed.

Lemma lookup_remove_old_content name content es :
  Fs.lookup_entry name (remove_old_content content es)
  = if decide (name = content) then None else Fs.lookup_entry name es.
Proof.
  unfold remove_old_content, Fs.isfile, Fs.isdir.
  case_decide as Hn.
  - subst name.
    destruct (Fs.lookup_entry content es) as [[|cs]|] eqn:E;
      rewrite ?lookup_remove_eq; done.
  - destruct (Fs.lookup_entry content es) as [[|cs]|] eqn:E;
      rewrite ?lookup_remove_ne by done; done.
Qed.

(** One round of the loop for an entry that is not the version directory
    itself. *)
Lemma move_step version content es cs node :
  content ≠ version →
  Fs.lookup_entry version es = Some (Dir cs) →
  Fs.lookup_entry content cs = Some node →
  ∃ es1,
    Fs.move_into_parent version content (remove_old_content content es) = Ok es1
    ∧ Fs.lookup_entry version es1 = Some (Dir (Fs.remove_entry content cs))
    ∧ Fs.lookup_entry content es1 = Some node
    ∧ ∀ name, name ≠ content → name ≠ version →
        Fs.lookup_entry name es1 = Fs.lookup_entry name es.
Proof.
  intros Hne Hversion Hcontent. unfold Fs.move_into_parent.
  rewrite !lookup_remove_old_content.
  rewrite decide_True by done. rewrite decide_False by done.
  rewrite Hversion, Hcontent. eexists. split; [done |].
  assert (is_Some (Fs.lookup_entry version (remove_old_content content es))) as Hsome.
  { rewrite lookup_remove_old_content, decide_False by done. eauto. }
  split_and!.
  - rewrite lookup_entry_app, lookup_replace_eq; done.
  - rewrite lookup_entry_app, lookup_replace_ne by done.
    rewrite lookup_remove_old_content, decide_True by done.
    simpl. by rewrite decide_True.
  - intros name Hn1 Hn2.
    rewrite lookup_entry_app, lookup_replace_ne by done.
    rewrite lookup_remove_old_content, decide_False by done.
    destruct (Fs.lookup_entry name es); [done |].
    simpl. by rewrite decide_False.
Qed.

Lemma move_contents_ok version (names : list string) es cs :
  NoDup names →
  version ∉ names →
  Fs.lookup_entry version es = Some (Dir cs) →
  (∀ name, name ∈ names → is_Some (Fs.lookup_entry name cs)) →
  ∃ es' cs',
    move_contents version names es = Ok es'
    ∧ Fs.lookup_entry version es' = Some (Dir cs')
    ∧ (∀ name, name ∈ names → Fs.lookup_entry name es' = Fs.lookup_entry name cs)
    ∧ (∀ name, name ∉ names → name ≠ version →
         Fs.lookup_entry name es' = Fs.lookup_entry name es).
Proof.
  revert es cs. induction names as [|content names IH]; intros es cs Hnodup Hnotin Hversion Hall.
  - exists es, cs. split_and!; [done | done | | done].
    intros name H. by apply elem_of_nil in H.
  - apply NoDup_cons in Hnodup as [Hfresh Hnodup].
    apply not_elem_of_cons in Hnotin as [Hne Hnotin].
    destruct (Hall content) as [node Hnode]; [apply elem_of_cons; by left |].
    destruct (move_step version content es cs node) as (es1 & Hmove & Hv1 & Hc1 & Hother);
      [done.. |].
    destruct (IH es1 (Fs.remove_entry content cs)) as (es' & cs' & Hrun & Hv' & Hin' & Hout');
      [done | done | done | |].
    { intros name Hname. rewrite lookup_remove_ne.
      - apply Hall, elem_of_cons. by right.
      - intros ->. done. }
    exists es', cs'. simpl. rewrite Hmove. split_and!; [done | done | |].
    + intros name [-> | Hname]%elem_of_cons.
      * rewrite Hout' by done. by rewrite Hc1, Hnode.
      * rewrite Hin' by done. apply lookup_remove_ne. intros ->. done.
    + intros name [Hn1 Hn2]%not_elem_of_cons Hn3.
      rewrite Hout' by done. by apply Hother.
Qed.

(** An entry of the version directory that carries the version's own name
    makes the loop delete the version directory and then fail on the move. *)
Lemma move_contents_own_name version (names : list string) es cs :
  NoDup names →
  version ∈ names →
  Fs.lookup_entry version es = Some (Dir cs) →
  (∀ name, name ∈ names → is_Some (Fs.lookup_entry name cs)) →
  move_contents version names es = Raise FileNotFoundError.
Proof.
  revert es cs. induction names as [|content names IH]; intros es cs Hnodup Hin Hversion Hall.
  - by apply elem_of_nil in Hin.
  - apply NoDup_cons in Hnodup as [Hfresh Hnodup]. simpl.
    destruct (decide (content = version)) as [-> | Hne].
    + unfold Fs.move_into_parent.
      rewrite !lookup_remove_old_content. by rewrite decide_True.
    + apply elem_of_cons in Hin as [-> | Hin]; [done |].
      destruct (Hall content) as [node Hnode]; [apply elem_of_cons; by left |].
      destruct (move_step version content es cs node) as (es1 & Hmove & Hv1 & Hc1 & Hother);
        [done.. |].
      rewrite Hmove. apply (IH es1 (Fs.remove_entry content cs)); [done.. |].
      intros name Hname. rewrite lookup_remove_ne.
      * apply Hall, elem_of_cons. by right.
      * intros ->. done.
Qed.

End EntryFacts.

(** C6. When the tree has a directory named after the latest version, with
    distinct entry names: if [move_latest_version_to_root] returns, every
    entry of that directory is an entry of the tree root under the same name
    (whatever the root held under that name before) and the root no longer has
    an entry named after the latest version; and it does return unless the
    directory holds an entry with the latest version's own name. *)
Theorem promotion_moves_every_entry
    (self : VersionManagement) (es cs : Fs.entries) :
  Fs.lookup_entry (latest_version self) es = Some (Dir cs) →
  NoDup (Fs.listdir cs) →
  (∀ es' log,
     move_latest_version_to_root self es = Ok (es', log) →
     (∀ name node,
        Fs.lookup_entry name cs = Some node →
        Fs.lookup_entry name es' = Some node)
     ∧ Fs.lookup_entry (latest_version self) es' = None)
  ∧ (latest_version self ∉ Fs.listdir cs →
     ∃ es', move_latest_version_to_root self es = Ok (es', [])).
Proof.
  intros Hlatest Hnodup.
  unfold move_latest_version_to_root. rewrite Hlatest.
  destruct (decide (latest_version self ∈ Fs.listdir cs)) as [Hin | Hnotin].
  - assert (move_contents (latest_version self) (Fs.listdir cs) es
            = Raise FileNotFoundError) as ->.
    { apply (move_contents_own_name _ _ _ cs); [done.. |].
      intros name. apply listdir_lookup_entry. }
    simpl. split; [| done]. intros es' log H. discriminate.
  - destruct (move_contents_ok (latest_version self) (Fs.listdir cs) es cs)
      as (es1 & cs1 & Hrun & Hv & Hmoved & _); [done | done | done | |].
    { intros name. apply listdir_lookup_entry. }
    rewrite Hrun. simpl. unfold Fs.rmtree. rewrite Hv. simpl.
    split; [| eauto].
    intros es' log [= <- <-]. split.
    + intros name node Hname.
      pose proof (lookup_entry_listdir _ _ _ Hname) as Hmem.
      rewrite lookup_remove_ne; [by rewrite Hmoved |].
      intros ->. done.
    + apply lookup_remove_eq.
Qed.

Lemma promotion_moves_every_entry_witness :
  (∀ es' log,
     move_latest_version_to_root manager_releases_only tree_with_v124 = Ok (es', log) →
     (∀ name node,
        Fs.lookup_entry name [("index.html", File); ("api", Dir [("index.html", File)])]
        = Some node →
        Fs.lookup_entry name es' = Some node)
     ∧ Fs.lookup_entry "v1.2.4" es' = None)
  ∧ ("v1.2.4" ∉ ["index.html"; "api"] →
     ∃ es', move_latest_version_to_root manager_releases_only tree_with_v124
            = Ok (es', [])).
Proof.
  apply (promotion_moves_every_entry manager_releases_only tree_with_v124
           [("index.html", File); ("api", Dir [("index.html", File)])]).
  - reflexivity.
  - apply (bool_decide_unpack _). vm_compute. exact I.
Defined.

(** ** Document enumeration *)

Section Enumeration.

Lemma rglob_html_Dir (es : Fs.entries) :
  Fs.rglob_html (Dir es)
  = fmap (λ e, [e.1]) (filter (λ e, Fs.matches_html e.1 = true) es)
    ++ (es ≫= λ e, fmap (cons e.1) (Fs.rglob_html e.2)).
Proof.
  simpl. by f_equal.
Qed.

Lemma wf_Dir (es : Fs.entries) :
  Fs.wf (Dir es) ↔ NoDup (fmap fst es) ∧ Forall (λ e, Fs.wf e.2) es.
Proof.
  simpl. apply and_iff_compat_l.
  induction es as [|e es IH]; simpl.
  - split; [by constructor | done].
  - rewrite Forall_cons, IH. done.
Qed.

Lemma lookup_entry_elem_of (name : string) (node : fsnode) (es : Fs.entries) :
  NoDup (fmap fst es) →
  (name, node) ∈ es ↔ Fs.lookup_entry name es = Some node.
Proof.
  induction es as [|[n node'] es IH]; simpl; intros Hnodup.
  - split; [intros H; by apply elem_of_nil in H | done].
  - apply NoDup_cons in Hnodup as [Hfresh Hnodup].
    rewrite elem_of_cons. case_decide as Hn.
    + subst n. split.
      * intros [[= ->] | Hin]; [done |].
        exfalso. apply Hfresh. apply list_elem_of_fmap. by exists (name, node).
      * intros [= ->]. by left.
    + rewrite <- (IH Hnodup). split; [| by right].
      intros [[= -> ->] | Hin]; done.
Qed.

Lemma rglob_html_nonempty (root : fsnode) : [] ∉ Fs.rglob_html root.
Proof.
  destruct root as [|es]; [apply not_elem_of_nil |].
  rewrite rglob_html_Dir, elem_of_app, list_elem_of_fmap, list_elem_of_bind.
  intros [(e & [=] & _) | (e & H & _)].
  apply list_elem_of_fmap in H as (rel & [=] & _).
Qed.

Lemma rglob_html_spec (rel : PurePath.t) :
  ∀ root, Fs.wf root → rel ∈ Fs.rglob_html root ↔ is_document root rel.
Proof.
  unfold is_document.
  induction rel as [|s rel IH]; intros root Hwf.
  - split; [| by intros [? _]].
    intros H. by apply rglob_html_nonempty in H.
  - destruct root as [|es].
    { simpl. split; [intros H; by apply elem_of_nil in H |].
      intros (_ & [? [=]] & _). }
    apply wf_Dir in Hwf as [Hnodup Hall].
    rewrite rglob_html_Dir, elem_of_app, list_elem_of_fmap, list_elem_of_bind.
    simpl Fs.node_at. split.
    + intros [([n node] & [= -> ->] & Hin) | ([n child] & Hin & Hchild)].
      * apply list_elem_of_filter in Hin as [Hhtml Hin]. simpl in *.
        apply lookup_entry_elem_of in Hin; [| done].
        rewrite Hin. split_and!; [done | by eexists | done].
      * apply list_elem_of_fmap in Hin as (rel' & [= <- <-] & Hrel').
        simpl in *.
        assert (Fs.wf child) as Hwf.
        { rewrite Forall_forall in Hall. apply (Hall (s, child)), Hchild. }
        apply lookup_entry_elem_of in Hchild; [| done].
        rewrite Hchild.
        apply (IH child Hwf) in Hrel' as (Hne & Hsome & Hhtml).
        split_and!; [done | done |].
        unfold PurePath.name in *. by destruct rel.
    + intros (_ & Hsome & Hhtml).
      destruct (Fs.lookup_entry s es) as [child|] eqn:Hlookup;
        [| by destruct Hsome].
      apply lookup_entry_elem_of in Hlookup; [| done].
      destruct rel as [|s' rel'].
      * left. exists (s, child). split; [done |].
        apply list_elem_of_filter. done.
      * right. exists (s, child). split; [| done].
        apply list_elem_of_fmap. exists (s' :: rel'). split; [done |].
        assert (Fs.wf child) as Hwf.
        { rewrite Forall_forall in Hall. apply (Hall (s, child)), Hlookup. }
        apply (IH child Hwf). split_and!; done.
Qed.

Lemma first_part_is_versioned_app (docsdir : PurePath.t) (part0 : string)
    (rest : PurePath.t) :
  first_part_is_versioned docsdir (docsdir ++ part0 :: rest)
  = Ok (versioned_name part0).
Proof. unfold first_part_is_versioned. by rewrite relative_to_app. Qed.

Lemma kept_spec (rel : PurePath.t) :
  kept rel = true
  ↔ ∃ part0 rest, rel = part0 :: rest ∧ versioned_name part0 = false.
Proof.
  destruct rel as [|part0 rest]; simpl.
  - split; [done | by intros (? & ? & [=] & _)].
  - rewrite negb_true_iff. split; [by exists part0, rest |].
    by intros (? & ? & [= <- <-] & ?).
Qed.

Lemma skip_versioned_filter (docsdir : PurePath.t) (rels : list PurePath.t) :
  [] ∉ rels →
  skip_versioned docsdir (fmap (app docsdir) rels)
  = Ok (fmap (app docsdir) (filter (λ rel, kept rel = true) rels)).
Proof.
  induction rels as [|rel rels IH]; intros Hne; [done |].
  apply not_elem_of_cons in Hne as [Hrel Hne].
  destruct rel as [|part0 rest]; [done |].
  csimpl. rewrite first_part_is_versioned_app, (IH Hne).
  rewrite filter_cons. simpl.
  by destruct (versioned_name part0).
Qed.

Lemma get_html_filepaths_by_prefix (docsdir : PurePath.t) (root : fsnode)
    (version_in_dir latest_version : string) :
  Fs.wf root →
  enumerates (belongs_by_prefix version_in_dir latest_version)
    docsdir root version_in_dir latest_version.
Proof.
  intros Hwf. unfold enumerates, get_html_filepaths, belongs_by_prefix.
  case_decide as Hv.
  - rewrite skip_versioned_filter by apply rglob_html_nonempty.
    eexists. split; [done |]. split.
    + intros path (rel & -> & _)%list_elem_of_fmap. by exists rel.
    + intros rel. rewrite list_elem_of_fmap. split.
      * intros (rel' & ->%(inj (app docsdir)) & Hin).
        apply list_elem_of_filter in Hin as [Hkeep%kept_spec Hin].
        split; [by apply rglob_html_spec | done].
      * intros [Hdoc Hkeep%kept_spec]. exists rel. split; [done |].
        apply list_elem_of_filter. split; [done | by apply rglob_html_spec].
  - assert (∀ rel, is_document root rel ∧ (∃ rest, rel = version_in_dir :: rest ∧ rest ≠ [])
                   ↔ ∃ es rest, Fs.node_at root [version_in_dir] = Some (Dir es)
                                 ∧ rel = version_in_dir :: rest
                                 ∧ is_document (Dir es) rest) as Hunder.
    { intros rel. unfold is_document. split.
      - intros ((_ & Hsome & Hhtml) & rest & -> & Hrest).
        destruct root as [|es0]; [by destruct Hsome |].
        simpl in *.
        destruct (Fs.lookup_entry version_in_dir es0) as [child|]; [| by destruct Hsome].
        destruct child as [|es]; [by destruct rest; destruct Hsome |].
        exists es, rest. split_and!; try done.
        unfold PurePath.name in *. by destruct rest.
      - intros (es & rest & Hnode & -> & Hrest & Hsome & Hhtml).
        split; [| by exists rest].
        split_and!; [done | |].
        + destruct root as [|es0]; [done |]. simpl in *.
          destruct (Fs.lookup_entry version_in_dir es0) as [child|]; [| done].
          by simplify_eq.
        + unfold PurePath.name in *. by destruct rest. }
    destruct (Fs.node_at root [version_in_dir]) as [[|es]|] eqn:Hnode.
    + exists []. split; [done |]. split; [intros ? H; by apply elem_of_nil in H |].
      intros rel. rewrite Hunder. split; [intros H; by apply elem_of_nil in H |].
      intros (? & ? & [=] & _).
    + eexists. split; [done |].
      assert (Fs.wf (Dir es)) as Hwf'.
      { destruct root as [|es0]; [done |]. simpl in Hnode.
        destruct (Fs.lookup_entry version_in_dir es0) as [child|] eqn:E; [| done].
        simplify_eq. apply wf_Dir in Hwf as [Hnodup Hall].
        apply lookup_entry_elem_of in E; [| done].
        rewrite Forall_forall in Hall. apply (Hall _ E). }
      split.
      * intros path (rel & -> & _)%list_elem_of_fmap. by eexists.
      * intros rel. rewrite Hunder, list_elem_of_fmap. split.
        -- intros (rest & ->%(inj (app docsdir)) & Hin).
           exists es, rest. split_and!; [done | done |].
           by apply rglob_html_spec.
        -- intros (es' & rest & [= <-] & -> & Hdoc).
           exists rest. split; [done |]. by apply rglob_html_spec.
    + exists []. split; [done |]. split; [intros ? H; by apply elem_of_nil in H |].
      intros rel. rewrite Hunder. split; [intros H; by apply elem_of_nil in H |].
      intros (? & ? & [=] & _).
Qed.

End Enumeration.

(** C3, as stated, fails: with [master], [v1.2.4] and [v1.2.3] tracked and
    [v1.2.4] the latest, the document [versions/index.html] of the promoted
    version has a first segment that names no tracked version, and the
    generator does not yield it. *)
Lemma enumeration_not_by_tracked_names :
  ¬ enumerates (belongs_by_tracked_names ["master"; "v1.2.4"; "v1.2.3"] "v1.2.4" "v1.2.4")
      tmp_abc promoted_tree "v1.2.4" "v1.2.4".
Proof.
  intros (paths & Hrun & _ & Hiff).
  vm_compute in Hrun. injection Hrun as <-.
  destruct (Hiff ["versions"; "index.html"]) as [_ Hback].
  assert (tmp_abc ++ ["versions"; "index.html"]
            ∈ [["/"; "tmp"; "abc"; "index.html"]]) as Hin.
  { apply Hback. split.
    - split_and!; [done | by eexists | reflexivity].
    - unfold belongs_by_tracked_names. rewrite decide_True by done.
      exists "versions", ["index.html"]. split; [done |].
      intros H.
      repeat (apply elem_of_cons in H as [H | H]; [discriminate |]).
      by apply elem_of_nil in H. }
  apply elem_of_cons in Hin as [Hin | Hin]; [discriminate |].
  by apply elem_of_nil in Hin.
Qed.

(** C3, amended. For a tree whose directories hold distinct names: when the
    version is the latest, [get_html_filepaths] yields exactly the entries
    matching ['*.html'] below the tree root whose first path segment does not
    start with [master], [main] or [v]; otherwise, the version's name being
    the name of a directory entry, it yields exactly the entries matching
    ['*.html'] below the directory named after the version, recursively. *)
Theorem get_html_filepaths_enumerates_by_prefix
    (docsdir : PurePath.t) (root : fsnode)
    (version_in_dir latest_version : string) :
  Fs.wf root →
  (version_in_dir ≠ latest_version → valid_segment version_in_dir) →
  enumerates (belongs_by_prefix version_in_dir latest_version)
    docsdir root version_in_dir latest_version.
Proof. intros Hwf _. by apply get_html_filepaths_by_prefix. Qed.

Lemma get_html_filepaths_enumerates_by_prefix_witness :
  enumerates (belongs_by_prefix "v1.2.4" "v1.2.4")
    tmp_abc promoted_tree "v1.2.4" "v1.2.4".
Proof.
  apply (get_html_filepaths_enumerates_by_prefix tmp_abc promoted_tree
           "v1.2.4" "v1.2.4").
  - simpl. repeat split; apply (bool_decide_unpack _); vm_compute; exact I.
  - intros H. by destruct H.
Defined.

(** ** Following the links *)

Section Links.

Lemma valid_segment_plain (s : string) : valid_segment s → plain_segment s.
Proof. by intros (? & _ & _ & ?). Qed.

Lemma plain_segment_slash_free (s : string) : plain_segment s → slash_free s.
Proof. by intros (_ & H). Qed.

Lemma plain_segment_head (s : string) :
  plain_segment s → Py.startswith s "/" = false.
Proof.
  intros (Hne & Hfree). destruct s as [|c s]; [done |].
  unfold slash_free in Hfree. simpl in *. rewrite andb_true_r.
  destruct (Ascii.eqb "/" c); done.
Qed.

Lemma dirs_str_app (l1 l2 : list string) :
  dirs_str (l1 ++ l2) = dirs_str l1 +:+ dirs_str l2.
Proof.
  induction l1 as [|s l1 IH]; simpl; [done |].
  by rewrite IH, !append_assoc.
Qed.

Lemma join_snoc (l : list string) (f : string) :
  Py.join "/" (l ++ [f]) = dirs_str l +:+ f.
Proof.
  unfold Py.join. induction l as [|s l IH]; [done |].
  change ((s :: l) ++ [f]) with (s :: (l ++ [f])).
  change (dirs_str (s :: l)) with (s +:+ "/" +:+ dirs_str l).
  rewrite !append_assoc, <- IH.
  by destruct l.
Qed.

Lemma str_snoc (l : list string) (f : string) :
  PurePath.str (l ++ [f]) = dirs_str l +:+ f.
Proof. rewrite <- join_snoc. unfold PurePath.str. by destruct l. Qed.

Lemma str_mul_dirs (k : nat) :
  Py.str_mul "../" (Z.of_nat k) = dirs_str (replicate k "..").
Proof.
  unfold Py.str_mul. rewrite Nat2Z.id.
  induction k as [|k IH]; [done |].
  simpl Nat.iter. by rewrite IH.
Qed.

(** *** The collapse leaves a well-formed path alone *)

Lemma collapse_free_app (a r : string) :
  slash_free a → collapse_dslash (a +:+ r) = a +:+ collapse_dslash r.
Proof.
  unfold slash_free. induction a as [|c a IH]; [done |].
  simpl. rewrite (Ascii.eqb_sym "/" c).
  destruct (Ascii.eqb c "/") eqn:E; [done |].
  intros H. by rewrite IH.
Qed.

Lemma collapse_slash (r : string) :
  Py.startswith r "/" = false →
  collapse_dslash (String "/" r) = String "/" (collapse_dslash r).
Proof.
  destruct r as [|c r]; [done |].
  simpl. rewrite andb_true_r, (Ascii.eqb_sym "/" c).
  intros ->. done.
Qed.

Lemma collapse_dslash_pair (r : string) :
  collapse_dslash (String "/" (String "/" r)) = String "/" (collapse_dslash r).
Proof. reflexivity. Qed.

Lemma startswith_slash_app (a r : string) :
  a ≠ "" → Py.startswith (a +:+ r) "/" = Py.startswith a "/".
Proof. by destruct a. Qed.

Lemma dirs_str_head (l : list string) (f : string) :
  Forall plain_segment l → Py.startswith f "/" = false →
  Py.startswith (dirs_str l +:+ f) "/" = false.
Proof.
  intros Hl Hf. destruct Hl as [|s l Hs Hl]; [done |].
  change (dirs_str (s :: l)) with (s +:+ String "/" (dirs_str l)).
  rewrite append_assoc.
  rewrite startswith_slash_app by apply Hs.
  by apply plain_segment_head.
Qed.

Lemma dirs_str_head_cons (s : string) (l : list string) (r : string) :
  plain_segment s →
  Py.startswith (dirs_str (s :: l) +:+ r) "/" = false.
Proof.
  intros Hs.
  change (dirs_str (s :: l)) with (s +:+ String "/" (dirs_str l)).
  rewrite append_assoc.
  rewrite startswith_slash_app by apply Hs.
  by apply plain_segment_head.
Qed.

Lemma slash_free_head (f : string) :
  slash_free f → Py.startswith f "/" = false.
Proof.
  unfold slash_free. destruct f as [|c f]; [done |].
  simpl. rewrite andb_true_r, (Ascii.eqb_sym "/" c).
  by destruct (Ascii.eqb c "/").
Qed.

Lemma collapse_free (f : string) : slash_free f → collapse_dslash f = f.
Proof.
  intros H. rewrite <- (append_nil_r f) at 1.
  rewrite collapse_free_app by done. apply append_nil_r.
Qed.

Lemma collapse_dirs (l : list string) (f : string) :
  Forall plain_segment l → slash_free f →
  collapse_dslash (dirs_str l +:+ f) = dirs_str l +:+ f.
Proof.
  intros Hl Hf. induction Hl as [|s l Hs Hl IH].
  - by apply collapse_free.
  - change (dirs_str (s :: l)) with (s +:+ String "/" (dirs_str l)).
    rewrite !append_assoc, append_cons.
    rewrite collapse_free_app by by apply plain_segment_slash_free.
    rewrite collapse_slash, IH; [done |].
    apply dirs_str_head; [done | by apply slash_free_head].
Qed.

(** A separator that follows a run of directories doubles the run's last
    separator; the pass drops it. *)
Lemma collapse_dirs_slash (l : list string) (r : string) :
  Forall plain_segment l → l ≠ [] →
  collapse_dslash (dirs_str l +:+ String "/" r)
  = dirs_str l +:+ collapse_dslash r.
Proof.
  intros Hl Hne. induction Hl as [|s l Hs Hl IH]; [done |].
  change (dirs_str (s :: l)) with (s +:+ String "/" (dirs_str l)).
  rewrite !append_assoc, !append_cons.
  rewrite collapse_free_app by by apply plain_segment_slash_free.
  f_equal.
  destruct l as [|s' l].
  - apply collapse_dslash_pair.
  - rewrite collapse_slash.
    + f_equal. by apply IH.
    + apply dirs_str_head_cons. by inversion Hl.
Qed.

End Links.

Section Hops.

Lemma plain_dotdot : plain_segment "..".
Proof. done. Qed.

Lemma version_slot_plain (v latest_version : string) :
  (v ≠ latest_version → valid_segment v) →
  Forall plain_segment (version_slot v latest_version).
Proof.
  intros Hv. unfold version_slot. case_decide; [done |].
  apply Forall_singleton, valid_segment_plain, Hv. done.
Qed.

(** The value before the trim, for a document at its place in the tree and
    another version as the target. *)
Lemma option_value_link (docsdir ds : PurePath.t) (f vdir target latest : string) :
  Forall plain_segment ds → slash_free f →
  (target ≠ latest → valid_segment target) →
  target ≠ vdir →
  option_value docsdir (docsdir ++ version_slot vdir latest ++ ds ++ [f])
    target vdir latest
  = Ok (dirs_str (replicate (length (version_slot vdir latest ++ ds)) ".."
                  ++ version_slot target latest ++ ds) +:+ f).
Proof.
  intros Hds Hf Htarget Hne. unfold option_value.
  rewrite relative_to_app. simpl.
  rewrite decide_False by congruence.
  rewrite replace_collapse. f_equal.
  set (ups := replicate (length (version_slot vdir latest ++ ds)) "..").
  assert (Forall plain_segment ups) as Hups.
  { apply Forall_replicate, plain_dotdot. }
  assert ((Z.of_nat (length (version_slot vdir latest ++ ds ++ [f])) - 1)%Z
          = Z.of_nat (length (version_slot vdir latest ++ ds))) as ->.
  { rewrite !length_app. simpl. lia. }
  rewrite str_mul_dirs. fold ups.
  assert ((if decide (vdir = latest)
           then PurePath.str (version_slot vdir latest ++ ds ++ [f])
           else PurePath.str (drop 1 (version_slot vdir latest ++ ds ++ [f])))
          = dirs_str ds +:+ f) as ->.
  { unfold version_slot. case_decide; simpl; [| rewrite drop_0]; apply str_snoc. }
  rewrite !dirs_str_app, !append_assoc.
  assert (∀ s X, dirs_str [s] +:+ X = s +:+ String "/" X) as Hone.
  { intros s X. change (dirs_str [s]) with (s +:+ String "/" "").
    by rewrite append_assoc. }
  unfold version_slot.
  destruct (decide (target = latest)) as [-> | Htl].
  - rewrite decide_False by tauto.
    change (dirs_str [] +:+ dirs_str ds +:+ f) with (dirs_str ds +:+ f).
    change ("" +:+ String "/" (dirs_str ds +:+ f))
      with (String "/" (dirs_str ds +:+ f)).
    rewrite collapse_dirs_slash; [by rewrite collapse_dirs | done |].
    subst ups. unfold version_slot. rewrite decide_False by done. done.
  - rewrite decide_True by done. rewrite Hone.
    assert (dirs_str ups +:+ target +:+ String "/" (dirs_str ds +:+ f)
            = dirs_str (ups ++ target :: ds) +:+ f) as ->.
    { rewrite dirs_str_app.
      change (dirs_str (target :: ds)) with (target +:+ String "/" (dirs_str ds)).
      by rewrite !append_assoc, append_cons. }
    apply collapse_dirs; [| done].
    apply Forall_app. split; [done |].
    apply Forall_cons. split; [| done].
    by apply valid_segment_plain, Htarget.
Qed.

Lemma trim_dirs (l : list string) (f : string) :
  l ≠ [] → trim_suffix (dirs_str l +:+ f) = dirs_str l +:+ trim_suffix f.
Proof.
  intros Hne. destruct (exists_last Hne) as (l0 & s & ->).
  rewrite dirs_str_app.
  change (dirs_str [s]) with (s +:+ "/" +:+ "").
  rewrite !append_assoc. simpl ("" +:+ _).
  change ("/" +:+ f) with (String "/" f).
  change ("/" +:+ trim_suffix f) with (String "/" (trim_suffix f)).
  rewrite <- !(append_assoc (dirs_str l0) s).
  rewrite !trim_suffix_rstrip. by apply rstrip_keep.
Qed.

Lemma split_free (f : string) : slash_free f → Url.split_slash f = [f].
Proof.
  unfold slash_free. induction f as [|c f IH]; [done |].
  simpl. rewrite (Ascii.eqb_sym "/" c).
  destruct (Ascii.eqb c "/"); [done |].
  intros H. by rewrite IH.
Qed.



(** *** Walking the segments *)




End Hops.

Section Landing.









End Landing.




(** * Further properties of the code *)

(** ** The resolver at its edges *)

Section ResolverEdges.


Lemma get_value_for_option_returns (docsdir rel : PurePath.t)
    (version_in_dropdown version_in_dir latest_version : string) :
  rel ≠ [] →
  ∃ value,
    get_value_for_option docsdir (docsdir ++ rel)
      version_in_dropdown version_in_dir latest_version = Ok value.
Proof.
  intros Hrel. unfold get_value_for_option, option_value.
  rewrite relative_to_app. simpl.
  destruct rel as [|part0 rel]; [done |]. simpl.
  repeat case_decide; eauto.
Qed.

Lemma relative_to_inv (p other rel : PurePath.t) :
  PurePath.relative_to p other = Ok rel → p = other ++ rel.
Proof.
  revert p. induction other as [|o other IH]; intros p; simpl.
  - by intros [= ->].
  - destruct p as [|q p]; [done |].
    case_decide as Hq; [| done]. subst q.
    intros H. by rewrite (IH p H).
Qed.

Lemma relative_to_error (p other : PurePath.t) (e : exn) :
  PurePath.relative_to p other = Raise e → e = ValueError.
Proof.
  revert p. induction other as [|o other IH]; intros p; simpl; [done |].
  destruct p as [|q p]; [by intros [= <-] |].
  case_decide; [apply IH | by intros [= <-]].
Qed.

Lemma relative_to_self (docsdir : PurePath.t) :
  PurePath.relative_to docsdir docsdir = Ok [].
Proof.
  pose proof (relative_to_app docsdir []) as H. by rewrite app_nil_r in H.
Qed.

Lemma get_value_for_option_at_root_own (docsdir : PurePath.t) (v latest : string) :
  get_value_for_option docsdir docsdir v v latest = Raise IndexError.
Proof.
  unfold get_value_for_option, option_value.
  rewrite relative_to_self. simpl.
  by rewrite decide_True.
Qed.


Lemma link_dirs_nonempty (ds : PurePath.t) (vdir target latest : string) :
  target ≠ vdir →
  replicate (length (version_slot vdir latest ++ ds)) ".."
    ++ version_slot target latest ++ ds ≠ [].
Proof.
  intros Hne. unfold version_slot.
  repeat case_decide; simplify_eq; by destruct ds.
Qed.

End ResolverEdges.


(** [get_value_for_option] raises [IndexError] exactly when the document path
    is [docsdir] itself and the dropdown version is the document's own; it
    raises nothing besides [ValueError] and [IndexError]. *)
Theorem get_value_for_option_index_error
    (docsdir html_filepath : PurePath.t)
    (version_in_dropdown version_in_dir latest_version : string) :
  (get_value_for_option docsdir html_filepath
     version_in_dropdown version_in_dir latest_version = Raise IndexError
   ↔ html_filepath = docsdir ∧ version_in_dir = version_in_dropdown)
  ∧ ∀ e, get_value_for_option docsdir html_filepath
           version_in_dropdown version_in_dir latest_version = Raise e →
         e = ValueError ∨ e = IndexError.
Proof.
  assert (∀ e, get_value_for_option docsdir html_filepath
                 version_in_dropdown version_in_dir latest_version = Raise e →
               e = ValueError
               ∨ e = IndexError ∧ html_filepath = docsdir
                 ∧ version_in_dir = version_in_dropdown) as Hcases.
  { intros e. unfold get_value_for_option, option_value.
    destruct (PurePath.relative_to html_filepath docsdir) as [rel|e'] eqn:Hrel.
    - simpl. case_decide as Hv.
      + destruct rel as [|part0 rel]; simpl.
        * intros [= <-]. right. split_and!; [done | | done].
          apply relative_to_inv in Hrel. by rewrite app_nil_r in Hrel.
        * case_decide; done.
      + done.
    - simpl. intros [= <-]. left. by apply relative_to_error in Hrel. }
  split.
  - split.
    + intros Hraise. destruct (Hcases _ Hraise) as [? | (_ & ? & ?)]; done.
    + intros [-> ->]. apply get_value_for_option_at_root_own.
  - intros e Hraise. destruct (Hcases _ Hraise) as [? | (? & _)]; tauto.
Qed.

(** For a document at its place in the tree and a target version other than
    its own, the returned link is: one [".."] per directory between the
    document and the tree root, the target version unless it is the latest,
    the directories of the document below its version, and the trimmed file
    name. *)
Theorem get_value_for_option_closed_form
    (docsdir ds : PurePath.t) (f version_in_dropdown version_in_dir latest_version : string) :
  Forall valid_segment ds →
  valid_segment f →
  (version_in_dropdown ≠ latest_version → valid_segment version_in_dropdown) →
  version_in_dropdown ≠ version_in_dir →
  get_value_for_option docsdir
    (docsdir ++ version_slot version_in_dir latest_version ++ ds ++ [f])
    version_in_dropdown version_in_dir latest_version
  = Ok (dirs_str (replicate (length (version_slot version_in_dir latest_version ++ ds)) ".."
                  ++ version_slot version_in_dropdown latest_version ++ ds)
        +:+ trim_suffix f).
Proof.
  intros Hds Hf Hv Hne. unfold get_value_for_option.
  rewrite option_value_link; [| | apply Hf | done | done].
  - simpl. rewrite trim_dirs; [done |]. by apply link_dirs_nonempty.
  - eapply Forall_impl; [exact Hds | apply valid_segment_plain].
Qed.

Lemma get_value_for_option_closed_form_witness :
  get_value_for_option tmp_abc
    (tmp_abc ++ version_slot "v1.2.3" "v1.2.4" ++ ["fundamentals"; "document"] ++ ["index.html"])
    "master" "v1.2.3" "v1.2.4"
  = Ok "../../../master/fundamentals/document/".
Proof.
  exact (get_value_for_option_closed_form tmp_abc ["fundamentals"; "document"]
           "index.html" "master" "v1.2.3" "v1.2.4"
           ltac:(repeat constructor; discriminate)
           ltac:(repeat split; discriminate)
           ltac:(intros _; repeat split; discriminate)
           ltac:(discriminate)).
Defined.

(** The returned link depends on the document path only through its part
    below [docsdir]: moving the tree changes no link. *)
Theorem get_value_for_option_relocatable
    (docsdir1 docsdir2 rel : PurePath.t)
    (version_in_dropdown version_in_dir latest_version : string) :
  get_value_for_option docsdir1 (docsdir1 ++ rel)
    version_in_dropdown version_in_dir latest_version
  = get_value_for_option docsdir2 (docsdir2 ++ rel)
      version_in_dropdown version_in_dir latest_version.
Proof.
  unfold get_value_for_option, option_value. by rewrite !relative_to_app.
Qed.

(** ** Labels and options *)

Section Options.

Lemma length_append (a b : string) :
  String.length (a +:+ b) = (String.length a + String.length b)%nat.
Proof. induction a as [|c a IH]; simpl; [done | by rewrite IH]. Qed.

Lemma has_selected_new_option (self : VersionManagement)
    (html_filepath : PurePath.t) (version_in_dir version_in_dropdown : string)
    (option : Tag) :
  new_option self html_filepath version_in_dir version_in_dropdown = Ok option →
  tag_name option = "option"
  ∧ tag_string option
    = get_text_for_option version_in_dropdown (latest_version self)
  ∧ has_selected option = bool_decide (version_in_dropdown = version_in_dir)
  ∧ ∃ value,
      get_value_for_option (docsdir self) html_filepath
        version_in_dropdown version_in_dir (latest_version self) = Ok value
      ∧ tag_attrs option !! 0%nat = Some ("value", value).
Proof.
  unfold new_option.
  destruct (get_value_for_option _ _ _ _ _) as [value|e]; [| done].
  simpl. intros [= <-]. simpl. split_and!; [done | done | | by exists value].
  unfold has_selected, is_option_selected. simpl.
  destruct (bool_decide (version_in_dropdown = version_in_dir)); simpl;
    first [ done
          | apply bool_decide_eq_true_2; set_solver
          | apply bool_decide_eq_false_2; set_solver ].
Qed.

Lemma new_options_for_spec (self : VersionManagement) (rel : PurePath.t)
    (version_in_dir : string) (versions : list string) :
  rel ≠ [] →
  ∃ options,
    new_options_for self (docsdir self ++ rel) version_in_dir versions = Ok options
    ∧ Forall2 (λ version option,
                 new_option self (docsdir self ++ rel) version_in_dir version
                 = Ok option) versions options.
Proof.
  intros Hrel. induction versions as [|v versions (options & Hrun & Hall)].
  - exists []. split; [done | constructor].
  - destruct (get_value_for_option_returns (docsdir self) rel v version_in_dir
                (latest_version self) Hrel) as [value Hvalue].
    simpl. unfold new_option at 1. rewrite Hvalue. simpl. rewrite Hrun.
    eexists. split; [done |]. constructor; [| done].
    unfold new_option. by rewrite Hvalue.
Qed.

Lemma new_dropdown_options_spec
    (self : VersionManagement) (rel : PurePath.t) (version_in_dir : string) :
  rel ≠ [] →
  ∃ options,
    new_dropdown_options self (docsdir self ++ rel) version_in_dir = Ok options
    ∧ Forall2 (λ version option,
                 tag_name option = "option"
                 ∧ tag_string option = get_text_for_option version (latest_version self)
                 ∧ has_selected option = bool_decide (version = version_in_dir)
                 ∧ ∃ value,
                     get_value_for_option (docsdir self) (docsdir self ++ rel)
                       version version_in_dir (latest_version self) = Ok value
                     ∧ tag_attrs option !! 0%nat = Some ("value", value))
        (dropdown_versions_in_order self) options.
Proof.
  intros Hrel. unfold new_dropdown_options.
  destruct (new_options_for_spec self rel version_in_dir
              (dropdown_versions_in_order self) Hrel) as (options & Hrun & Hall).
  exists options. split; [done |].
  eapply Forall2_impl; [exact Hall |].
  intros version option. apply has_selected_new_option.
Qed.

Lemma filter_none (x : string) (l : list string) :
  x ∉ l → filter (λ y, y = x) l = [].
Proof.
  induction l as [|y l IH]; [done |].
  intros [Hy Hl]%not_elem_of_cons.
  rewrite filter_cons, decide_False by done. by apply IH.
Qed.

Lemma count_occurrences_NoDup (x : string) (l : list string) :
  NoDup l → x ∈ l → length (filter (λ y, y = x) l) = 1%nat.
Proof.
  induction l as [|y l IH]; intros Hnodup Hin.
  - by apply elem_of_nil in Hin.
  - apply NoDup_cons in Hnodup as [Hfresh Hnodup].
    rewrite filter_cons. case_decide as Hy.
    + subst y. simpl. by rewrite filter_none.
    + apply IH; [done |].
      apply elem_of_cons in Hin as [-> | Hin]; done.
Qed.

End Options.

(** The label of an option is ["latest(v)"] exactly for the latest version,
    and the version itself otherwise. *)
Theorem get_text_for_option_latest_iff (version_in_dropdown latest_version : string) :
  (get_text_for_option version_in_dropdown latest_version
   = "latest(" +:+ version_in_dropdown +:+ ")"
   ↔ version_in_dropdown = latest_version)
  ∧ (get_text_for_option version_in_dropdown latest_version = version_in_dropdown
     ↔ version_in_dropdown ≠ latest_version).
Proof.
  assert ("latest(" +:+ version_in_dropdown +:+ ")" ≠ version_in_dropdown) as Hlen.
  { intros H. apply (f_equal String.length) in H.
    rewrite !length_append in H. simpl in H. lia. }
  unfold get_text_for_option.
  case_decide as Hv; split; split; try done; intros; congruence.
Qed.

(** For a document below [docsdir] the inner loop of [update_dropdown_options]
    raises nothing and makes one [option] tag per version of
    [dropdown_versions_in_order], in that order: each carries the label of its
    version, the link to its version as its first attribute, and the
    attribute [selected] exactly when its version is the document's. *)
Theorem new_dropdown_options_in_order
    (self : VersionManagement) (rel : PurePath.t) (version_in_dir : string) :
  rel ≠ [] →
  ∃ options,
    new_dropdown_options self (docsdir self ++ rel) version_in_dir = Ok options
    ∧ Forall2 (λ version option,
                 tag_name option = "option"
                 ∧ tag_string option = get_text_for_option version (latest_version self)
                 ∧ has_selected option = bool_decide (version = version_in_dir)
                 ∧ ∃ value,
                     get_value_for_option (docsdir self) (docsdir self ++ rel)
                       version version_in_dir (latest_version self) = Ok value
                     ∧ tag_attrs option !! 0%nat = Some ("value", value))
        (dropdown_versions_in_order self) options.
Proof. apply new_dropdown_options_spec. Qed.

Lemma new_dropdown_options_in_order_witness :
  ∃ options,
    new_dropdown_options manager_releases_only
      (docsdir manager_releases_only ++ ["v1.2.3"; "index.html"]) "v1.2.3" = Ok options
    ∧ Forall2 (λ version option,
                 tag_name option = "option"
                 ∧ tag_string option = get_text_for_option version "v1.2.4"
                 ∧ has_selected option = bool_decide (version = "v1.2.3")
                 ∧ ∃ value,
                     get_value_for_option tmp_abc (tmp_abc ++ ["v1.2.3"; "index.html"])
                       version "v1.2.3" "v1.2.4" = Ok value
                     ∧ tag_attrs option !! 0%nat = Some ("value", value))
        (dropdown_versions_in_order manager_releases_only) options.
Proof.
  exact (new_dropdown_options_in_order manager_releases_only
           ["v1.2.3"; "index.html"] "v1.2.3" ltac:(discriminate)).
Defined.

(** When the versions of the dropdown are distinct and the document's version
    is one of them, exactly one of the options made for the document carries
    [selected]; when it is none of them, no option does. *)
Theorem new_dropdown_options_one_selected
    (self : VersionManagement) (rel : PurePath.t) (version_in_dir : string)
    (options : list Tag) :
  rel ≠ [] →
  NoDup (dropdown_versions_in_order self) →
  new_dropdown_options self (docsdir self ++ rel) version_in_dir = Ok options →
  length (filter (λ option, has_selected option = true) options)
  = if bool_decide (version_in_dir ∈ dropdown_versions_in_order self)
    then 1%nat else 0%nat.
Proof.
  intros Hrel Hnodup Hrun.
  destruct (new_dropdown_options_spec self rel version_in_dir Hrel)
    as (options' & Hrun' & Hall).
  rewrite Hrun in Hrun'. injection Hrun' as <-.
  assert (length (filter (λ option, has_selected option = true) options)
          = length (filter (λ v, v = version_in_dir) (dropdown_versions_in_order self)))
    as ->.
  { clear Hnodup Hrun. induction Hall as [|v option vs options Hone Hall IH]; [done |].
    destruct Hone as (_ & _ & Hone & _).
    rewrite !filter_cons. rewrite Hone.
    destruct (decide (v = version_in_dir)) as [Hv | Hv].
    - rewrite bool_decide_eq_true_2 by done. rewrite decide_True by done.
      simpl. by rewrite IH.
    - rewrite bool_decide_eq_false_2 by done. rewrite decide_False by done.
      done. }
  case_bool_decide as Hin.
  - by apply count_occurrences_NoDup.
  - by rewrite filter_none.
Qed.

Lemma new_dropdown_options_one_selected_witness :
  ∃ options,
    new_dropdown_options manager_releases_only
      (docsdir manager_releases_only ++ ["v1.2.3"; "index.html"]) "v1.2.3" = Ok options
    ∧ length (filter (λ option, has_selected option = true) options) = 1%nat.
Proof.
  eexists. split; [reflexivity |].
  apply (new_dropdown_options_one_selected manager_releases_only
           ["v1.2.3"; "index.html"] "v1.2.3").
  - discriminate.
  - apply (bool_decide_unpack _). vm_compute. exact I.
  - reflexivity.
Defined.

Section EnumeratedOptions.

Lemma get_html_filepaths_under (docsdir : PurePath.t) (root : fsnode)
    (version_in_dir latest_version : string) :
  ∃ paths,
    get_html_filepaths docsdir root version_in_dir latest_version = Ok paths
    ∧ ∀ path, path ∈ paths → ∃ rel, rel ≠ [] ∧ path = docsdir ++ rel.
Proof.
  unfold get_html_filepaths. case_decide as Hv.
  - rewrite skip_versioned_filter by apply rglob_html_nonempty.
    eexists. split; [done |].
    intros path (rel & -> & Hin)%list_elem_of_fmap.
    apply list_elem_of_filter in Hin as [_ Hin].
    exists rel. split; [| done]. intros ->. by apply rglob_html_nonempty in Hin.
  - destruct (Fs.node_at root [version_in_dir]) as [[|es]|].
    + exists []. split; [done |]. intros path H. by apply elem_of_nil in H.
    + eexists. split; [done |].
      intros path (rel & -> & _)%list_elem_of_fmap.
      by exists (version_in_dir :: rel).
    + exists []. split; [done |]. intros path H. by apply elem_of_nil in H.
Qed.

End EnumeratedOptions.

(** [get_html_filepaths] raises nothing, and for every path it yields the
    inner loop of [update_dropdown_options] makes its options without raising,
    one per version of [dropdown_versions_in_order]. *)
Theorem options_for_every_enumerated_document
    (self : VersionManagement) (root : fsnode) (version_in_dir : string) :
  ∃ paths,
    get_html_filepaths (docsdir self) root version_in_dir (latest_version self)
    = Ok paths
    ∧ ∀ html_filepath, html_filepath ∈ paths →
        ∃ options,
          new_dropdown_options self html_filepath version_in_dir = Ok options
          ∧ length options = length (dropdown_versions_in_order self).
Proof.
  destruct (get_html_filepaths_under (docsdir self) root version_in_dir
              (latest_version self)) as (paths & Hrun & Hunder).
  exists paths. split; [done |].
  intros html_filepath (rel & Hrel & ->)%Hunder.
  destruct (new_dropdown_options_spec self rel version_in_dir Hrel)
    as (options & Hopts & Hall).
  exists options. split; [done |].
  symmetry. by eapply Forall2_length.
Qed.

(** ** The version catalogue *)

(** [__init__] raises [IndexError] exactly when the release list is empty;
    otherwise the latest version is the first release, and it is one of the
    versions of the dropdown. *)
Theorem VersionManagement_init_latest
    (a : Namespace) (dir : PurePath.t) (releases : list string) :
  (VersionManagement_init a dir releases = Raise IndexError ↔ releases = [])
  ∧ ∀ self,
      VersionManagement_init a dir releases = Ok self →
      head releases = Some (latest_version self)
      ∧ last_n_versions self = releases
      ∧ latest_version self ∈ dropdown_versions_in_order self
      ∧ _existing_versions self = [] ∧ _non_existing_versions self = [].
Proof.
  unfold VersionManagement_init. destruct releases as [|latest releases].
  - split; [done |]. intros self [=].
  - split; [done |]. intros self [= <-]. simpl.
    split_and!; try done.
    unfold dropdown_versions_in_order. simpl.
    apply elem_of_app. right. apply elem_of_cons. by left.
Qed.

(** The versions whose presence [get_versions_status] checks are exactly the
    versions of the dropdown. *)
Theorem relevant_versions_are_dropdown_versions
    (self : VersionManagement) (version : string) :
  version ∈ relevant_versions self ↔ version ∈ dropdown_versions_in_order self.
Proof.
  unfold relevant_versions, dropdown_versions_in_order.
  destruct (exclude_default_branch (args self)); simpl.
  - by rewrite elem_of_list_to_set.
  - rewrite elem_of_union, elem_of_list_to_set, elem_of_singleton, elem_of_cons.
    tauto.
Qed.

(** ** The version status scan, in general *)

Section ScanFacts.

(** The bound the code compares the number of recorded versions with. *)
Local Abbreviation bound self :=
  (if negb (exclude_default_branch (args self))
   then Z.add (num_releases (args self)) 1%Z else 0%Z).

Lemma elem_of_relevant_versions (self : VersionManagement) (version : string) :
  version ∈ relevant_versions self ↔ version ∈ dropdown_versions_in_order self.
Proof.
  unfold relevant_versions, dropdown_versions_in_order.
  destruct (exclude_default_branch (args self)); simpl.
  - by rewrite elem_of_list_to_set.
  - rewrite elem_of_union, elem_of_list_to_set, elem_of_singleton, elem_of_cons.
    tauto.
Qed.

Lemma scan_entry_cases (self : VersionManagement) (es : Fs.entries)
    (existing : list string) (dir : string) :
  scan_entry self es existing dir = existing
  ∨ scan_entry self es existing dir = existing ++ [dir]
    ∧ Fs.isdir es dir = true
    ∧ (Z.of_nat (length existing) < bound self)%Z
    ∧ (exclude_default_branch (args self) = false
       ∧ dir = default_branch_name (args self)
       ∨ Py.startswith dir "v" = true).
Proof.
  unfold scan_entry.
  destruct (exclude_default_branch (args self)) eqn:Hex,
    (Fs.isdir es dir) eqn:Hdir, (Py.startswith dir "v") eqn:Hv;
    cbn [negb andb]; repeat case_bool_decide; cbn [andb];
    try (by left); right; split_and!; try done; tauto.
Qed.

Lemma scan_fold (self : VersionManagement) (es : Fs.entries) (names : list string) :
  ∀ existing,
    existing `prefix_of` fold_left (scan_entry self es) names existing
    ∧ (∀ dir, dir ∈ fold_left (scan_entry self es) names existing →
         dir ∈ existing
         ∨ dir ∈ names ∧ Fs.isdir es dir = true
           ∧ (exclude_default_branch (args self) = false
              ∧ dir = default_branch_name (args self)
              ∨ Py.startswith dir "v" = true))
    ∧ ((Z.of_nat (length existing) ≤ bound self)%Z →
       (Z.of_nat (length (fold_left (scan_entry self es) names existing))
        ≤ bound self)%Z).
Proof.
  induction names as [|name names IH]; intros existing; simpl.
  - split_and!; [done | by left | done].
  - destruct (IH (scan_entry self es existing name)) as (Hpre & Hin & Hlen).
    destruct (scan_entry_cases self es existing name)
      as [Hsame | (Hadd & Hdir & Hlt & Hname)].
    + rewrite Hsame in *. split_and!; [done | | done].
      intros dir [? | (? & ?)]%Hin; [by left |].
      right. split; [by apply elem_of_cons; right | done].
    + rewrite Hadd in *. split_and!.
      * etrans; [| exact Hpre]. by apply prefix_app_r.
      * intros dir [[? | ->%list_elem_of_singleton]%elem_of_app | (? & ?)]%Hin.
        -- by left.
        -- right. split; [by apply elem_of_cons; left | done].
        -- right. split; [by apply elem_of_cons; right | done].
      * intros _. apply Hlen. rewrite length_app. simpl. lia.
Qed.

Lemma promoted_not_directory (self : VersionManagement) (es es' : Fs.entries)
    (log : list (level * string)) :
  move_latest_version_to_root self es = Ok (es', log) →
  Fs.isdir es' (latest_version self) = false.
Proof.
  unfold move_latest_version_to_root, Fs.isdir.
  destruct (Fs.lookup_entry (latest_version self) es) as [[|cs]|] eqn:E.
  - intros [= <- <-]. by rewrite E.
  - destruct (move_contents _ _ _) as [es1|e]; [| done]. simpl.
    unfold Fs.rmtree.
    destruct (Fs.lookup_entry (latest_version self) es1) as [[|cs1]|]; try done.
    simpl. intros [= <- <-]. by rewrite lookup_remove_eq.
  - intros [= <- <-]. by rewrite E.
Qed.

End ScanFacts.

(** After [get_versions_status] the missing versions are the versions of the
    dropdown that the scan did not record, each listed once. *)
Theorem missing_versions_complement_existing
    (self : VersionManagement) (es : Fs.entries) :
  NoDup (_non_existing_versions (get_versions_status self es))
  ∧ ∀ version,
      version ∈ _non_existing_versions (get_versions_status self es)
      ↔ version ∈ dropdown_versions_in_order self
        ∧ version ∉ _existing_versions (get_versions_status self es).
Proof.
  split.
  - unfold get_versions_status. simpl. apply NoDup_elements.
  - intros version. rewrite missing_is_difference.
    by rewrite elem_of_relevant_versions.
Qed.

(** [get_versions_status] keeps what was recorded before, in front, and every
    version it adds names a directory of the tree that is the default branch
    (when that is included) or starts with [v]. *)
Theorem scan_records_version_directories
    (self : VersionManagement) (es : Fs.entries) :
  _existing_versions self `prefix_of` _existing_versions (get_versions_status self es)
  ∧ ∀ dir,
      dir ∈ _existing_versions (get_versions_status self es) →
      dir ∈ _existing_versions self
      ∨ dir ∈ Fs.listdir es ∧ Fs.isdir es dir = true
        ∧ (exclude_default_branch (args self) = false
           ∧ dir = default_branch_name (args self)
           ∨ Py.startswith dir "v" = true).
Proof.
  unfold get_versions_status. simpl.
  destruct (scan_fold self es (Fs.listdir es) (_existing_versions self))
    as (Hpre & Hin & _).
  done.
Qed.

(** With the default branch included, a scan that starts with at most
    [num_releases + 1] recorded versions ends with at most that many. *)
Theorem scan_respects_bound (self : VersionManagement) (es : Fs.entries) :
  exclude_default_branch (args self) = false →
  (Z.of_nat (length (_existing_versions self)) ≤ num_releases (args self) + 1)%Z →
  (Z.of_nat (length (_existing_versions (get_versions_status self es)))
   ≤ num_releases (args self) + 1)%Z.
Proof.
  intros Hin Hlen. unfold get_versions_status. simpl.
  destruct (scan_fold self es (Fs.listdir es) (_existing_versions self))
    as (_ & _ & Hbound).
  rewrite Hin in Hbound. by apply Hbound.
Qed.

Lemma scan_respects_bound_witness :
  (Z.of_nat (length (_existing_versions
                       (get_versions_status manager_with_default crowded_tree)))
   ≤ 1 + 1)%Z.
Proof.
  apply (scan_respects_bound manager_with_default crowded_tree).
  - reflexivity.
  - vm_compute. discriminate.
Defined.

(** A version of the dropdown that was not recorded before and is no directory
    of the tree is reported missing. *)
Theorem absent_version_is_missing
    (self : VersionManagement) (es : Fs.entries) (version : string) :
  version ∈ dropdown_versions_in_order self →
  version ∉ _existing_versions self →
  Fs.isdir es version = false →
  version ∈ _non_existing_versions (get_versions_status self es).
Proof.
  intros Hdrop Hfresh Hdir.
  apply missing_is_difference. split; [by apply elem_of_relevant_versions |].
  unfold get_versions_status. simpl.
  destruct (scan_fold self es (Fs.listdir es) (_existing_versions self))
    as (_ & Hin & _).
  intros [? | (_ & ? & _)]%Hin; [done | congruence].
Qed.

Lemma absent_version_is_missing_witness :
  "v1.2.4" ∈ _non_existing_versions
               (get_versions_status manager_releases_only tree_with_v123).
Proof.
  apply (absent_version_is_missing manager_releases_only tree_with_v123 "v1.2.4").
  - apply (bool_decide_unpack _). vm_compute. exact I.
  - apply (bool_decide_unpack _). vm_compute. exact I.
  - reflexivity.
Defined.

(** Once [move_latest_version_to_root] has returned, a fresh call of
    [get_versions_status] on the resulting tree reports the latest version as
    missing: its content lies at the root and no directory carries its name. *)
Theorem promoted_latest_is_reported_missing
    (self : VersionManagement) (es es' : Fs.entries) (log : list (level * string)) :
  latest_version self ∈ last_n_versions self →
  _existing_versions self = [] →
  move_latest_version_to_root self es = Ok (es', log) →
  latest_version self ∈ _non_existing_versions (get_versions_status self es').
Proof.
  intros Hlatest Hfresh Hmove.
  apply missing_is_difference. split.
  - apply elem_of_relevant_versions. unfold dropdown_versions_in_order.
    apply elem_of_app. by right.
  - unfold get_versions_status. simpl.
    destruct (scan_fold self es' (Fs.listdir es') (_existing_versions self))
      as (_ & Hin & _).
    intros [Hold | (_ & Hdir & _)]%Hin.
    + rewrite Hfresh in Hold. by apply elem_of_nil in Hold.
    + rewrite (promoted_not_directory self es es' log Hmove) in Hdir. done.
Qed.

Lemma promoted_latest_is_reported_missing_witness :
  ∃ es' log,
    move_latest_version_to_root manager_releases_only tree_with_v124 = Ok (es', log)
    ∧ "v1.2.4" ∈ _non_existing_versions
                   (get_versions_status manager_releases_only es').
Proof.
  eexists _, _. split; [reflexivity |].
  eapply (promoted_latest_is_reported_missing manager_releases_only tree_with_v124).
  - apply (bool_decide_unpack _). vm_compute. exact I.
  - reflexivity.
  - reflexivity.
Defined.

(** ** Promotion, in general *)

(** A returning [move_latest_version_to_root] leaves alone every root entry
    that is neither the latest version's directory nor named like one of its
    entries. *)
Theorem promotion_keeps_other_entries
    (self : VersionManagement) (es cs es' : Fs.entries) (log : list (level * string)) :
  Fs.lookup_entry (latest_version self) es = Some (Dir cs) →
  NoDup (Fs.listdir cs) →
  move_latest_version_to_root self es = Ok (es', log) →
  ∀ name, name ≠ latest_version self → name ∉ Fs.listdir cs →
          Fs.lookup_entry name es' = Fs.lookup_entry name es.
Proof.
  intros Hlatest Hnodup. unfold move_latest_version_to_root. rewrite Hlatest.
  destruct (decide (latest_version self ∈ Fs.listdir cs)) as [Hin | Hnotin].
  - rewrite (move_contents_own_name (latest_version self) (Fs.listdir cs) es cs
               Hnodup Hin Hlatest); [done |].
    intros name. apply listdir_lookup_entry.
  - destruct (move_contents_ok (latest_version self) (Fs.listdir cs) es cs)
      as (es1 & cs1 & Hrun & Hv & _ & Hkept); [done | done | done | |].
    { intros name. apply listdir_lookup_entry. }
    rewrite Hrun. simpl. unfold Fs.rmtree. rewrite Hv. simpl.
    intros [= <- <-] name Hne Hout.
    rewrite lookup_remove_ne by done. by apply Hkept.
Qed.

Lemma promotion_keeps_other_entries_witness :
  ∃ es' log,
    move_latest_version_to_root manager_releases_only tree_with_old_version
    = Ok (es', log)
    ∧ ∀ name, name ≠ "v1.2.4" → name ∉ ["index.html"; "api"] →
              Fs.lookup_entry name es' = Fs.lookup_entry name tree_with_old_version.
Proof.
  eexists _, _. split; [reflexivity |].
  eapply (promotion_keeps_other_entries manager_releases_only tree_with_old_version
            [("index.html", File); ("api", Dir [("index.html", File)])]).
  - reflexivity.
  - apply (bool_decide_unpack _). vm_compute. exact I.
  - reflexivity.
Defined.

(** With distinct entry names in the latest version's directory,
    [move_latest_version_to_root] raises exactly when that directory holds an
    entry with the version's own name, and then it raises
    [FileNotFoundError]. *)
Theorem promotion_raises_on_own_name
    (self : VersionManagement) (es cs : Fs.entries) :
  Fs.lookup_entry (latest_version self) es = Some (Dir cs) →
  NoDup (Fs.listdir cs) →
  (latest_version self ∈ Fs.listdir cs
   → move_latest_version_to_root self es = Raise FileNotFoundError)
  ∧ ((∃ e, move_latest_version_to_root self es = Raise e)
     → latest_version self ∈ Fs.listdir cs).
Proof.
  intros Hlatest Hnodup. unfold move_latest_version_to_root. rewrite Hlatest.
  split.
  - intros Hin.
    rewrite (move_contents_own_name (latest_version self) (Fs.listdir cs) es cs
               Hnodup Hin Hlatest); [done |].
    intros name. apply listdir_lookup_entry.
  - intros [e Hraise].
    destruct (decide (latest_version self ∈ Fs.listdir cs)) as [Hin | Hnotin]; [done |].
    destruct (move_contents_ok (latest_version self) (Fs.listdir cs) es cs)
      as (es1 & cs1 & Hrun & Hv & _); [done | done | done | |].
    { intros name. apply listdir_lookup_entry. }
    rewrite Hrun in Hraise. simpl in Hraise. unfold Fs.rmtree in Hraise.
    rewrite Hv in Hraise. done.
Qed.

Lemma promotion_raises_on_own_name_witness :
  ("v1.2.4" ∈ ["index.html"; "v1.2.4"]
   → move_latest_version_to_root manager_releases_only tree_with_nested_version
     = Raise FileNotFoundError)
  ∧ ((∃ e, move_latest_version_to_root manager_releases_only tree_with_nested_version
           = Raise e)
     → "v1.2.4" ∈ ["index.html"; "v1.2.4"]).
Proof.
  apply (promotion_raises_on_own_name manager_releases_only tree_with_nested_version
           [("index.html", File); ("v1.2.4", Dir [])]).
  - reflexivity.
  - apply (bool_decide_unpack _). vm_compute. exact I.
Defined.

(** A second [move_latest_version_to_root] on the tree the first one returned
    changes nothing and logs the warning. *)
Theorem promotion_again_is_skipped
    (self : VersionManagement) (es es' : Fs.entries) (log : list (level * string)) :
  move_latest_version_to_root self es = Ok (es', log) →
  move_latest_version_to_root self es'
  = Ok (es', [(WARNING,
               "The latest version " +:+ latest_version self
               +:+ " doesn't exist, please build first!")]).
Proof.
  intros Hmove%promoted_not_directory.
  unfold Fs.isdir in Hmove. unfold move_latest_version_to_root.
  destruct (Fs.lookup_entry (latest_version self) es') as [[|cs]|]; done.
Qed.

Lemma promotion_again_is_skipped_witness :
  ∃ es' log,
    move_latest_version_to_root manager_releases_only tree_with_v124 = Ok (es', log)
    ∧ move_latest_version_to_root manager_releases_only es'
      = Ok (es', [(WARNING, "The latest version v1.2.4 doesn't exist, please build first!")]).
Proof.
  eexists _, _. split; [reflexivity |].
  eapply (promotion_again_is_skipped manager_releases_only tree_with_v124).
  reflexivity.
Defined.

(** ** The build loop and the slot of a version *)

(** When a first list of versions is built without a failure, building the
    list followed by further versions continues from the world the first list
    left: the versions are processed one after the other, in the order of the
    list. *)
Theorem build_versions_in_sequence {W Tag : Type}
    (log_info : string → W → W) (getcwd : W → string)
    (checkout_enter : string → string → W → W * result Tag)
    (checkout_exit : Tag → W → W * result unit)
    (cleanup_version_directory : string → string → W → W)
    (build_local_only : string → W → W * result unit)
    (recreate_version_directory : string → Tag → string → string → W → W * result unit)
    (pre post : list string) (repodir gh_page_dir build_dir : string) (w w1 : W) :
  build_versions log_info getcwd checkout_enter checkout_exit cleanup_version_directory
    build_local_only recreate_version_directory
    pre repodir gh_page_dir build_dir w = (w1, Ok ()) →
  build_versions log_info getcwd checkout_enter checkout_exit cleanup_version_directory
    build_local_only recreate_version_directory
    (pre ++ post) repodir gh_page_dir build_dir w
  = build_versions log_info getcwd checkout_enter checkout_exit cleanup_version_directory
      build_local_only recreate_version_directory
      post repodir gh_page_dir build_dir w1.
Proof. apply build_versions_app. Qed.

Lemma build_versions_in_sequence_witness :
  Trace.run [] (["master"] ++ ["v1.2.4"])
  = build_versions Trace.log_info Trace.getcwd Trace.checkout_enter Trace.checkout_exit
      Trace.cleanup (Trace.build []) Trace.recreate
      ["v1.2.4"] "repo" "gh-pages" "_build/dirhtml"
      [Trace.Info "Asked to rebuild version `master`, /tmp/docs";
       Trace.Checkout "master"; Trace.Cleanup "master"; Trace.Build "master";
       Trace.Recreate "master"; Trace.Release "master"].
Proof.
  unfold Trace.run.
  apply (build_versions_in_sequence
           Trace.log_info Trace.getcwd Trace.checkout_enter Trace.checkout_exit
           Trace.cleanup (Trace.build []) Trace.recreate
           ["master"] ["v1.2.4"]).
  reflexivity.
Defined.

(** For a version whose name is the name of a directory entry, cleaning its
    slot and copying a build output that is a directory into it succeeds
    whenever no plain file of the version's name lies in the way: afterwards the slot holds the build output, and every other entry of
    the published tree is as before. *)
Theorem rebuild_slot_installs_build
    (built es : Fs.entries) (version : string) :
  valid_segment version →
  Fs.isfile es version = false →
  ∃ es',
    GhPages.rebuild_slot (Some (Dir built)) version es = GhPages.Copied es'
    ∧ Fs.lookup_entry version es' = Some (Dir built)
    ∧ ∀ name, name ≠ version → Fs.lookup_entry name es' = Fs.lookup_entry name es.
Proof.
  intros _ Hfile.
  unfold GhPages.rebuild_slot, GhPages.recreate_version_directory,
    GhPages.cleanup_version_directory, Fs.isdir.
  unfold Fs.isfile in Hfile.
  destruct (Fs.lookup_entry version es) as [[|cs]|] eqn:E; [done | |].
  - rewrite lookup_remove_eq. eexists. split; [done |]. split.
    + rewrite lookup_entry_app, lookup_remove_eq. simpl. by rewrite decide_True.
    + intros name Hne. rewrite lookup_entry_app, lookup_remove_ne by done.
      destruct (Fs.lookup_entry name es); [done |]. simpl. by rewrite decide_False.
  - rewrite E. eexists. split; [done |]. split.
    + rewrite lookup_entry_app, E. simpl. by rewrite decide_True.
    + intros name Hne. rewrite lookup_entry_app.
      destruct (Fs.lookup_entry name es); [done |]. simpl. by rewrite decide_False.
Qed.

Lemma rebuild_slot_installs_build_witness :
  ∃ es',
    GhPages.rebuild_slot (Some (Dir [("index.html", File)])) "v1.2.3" tree_with_v123
    = GhPages.Copied es'
    ∧ Fs.lookup_entry "v1.2.3" es' = Some (Dir [("index.html", File)])
    ∧ ∀ name, name ≠ "v1.2.3" →
              Fs.lookup_entry name es' = Fs.lookup_entry name tree_with_v123.
Proof.
  exact (rebuild_slot_installs_build [("index.html", File)] tree_with_v123 "v1.2.3"
           ltac:(repeat split; discriminate) eq_refl).
Defined.

(** A plain file named like the version survives the cleanup, whose failure is
    ignored, and the copy of the build output then fails because its
    destination exists. *)
Theorem rebuild_slot_blocked_by_file
    (built es : Fs.entries) (version : string) :
  Fs.isfile es version = true →
  GhPages.cleanup_version_directory version es = es
  ∧ GhPages.rebuild_slot (Some (Dir built)) version es = GhPages.DestinationExists.
Proof.
  unfold GhPages.rebuild_slot, GhPages.recreate_version_directory,
    GhPages.cleanup_version_directory, Fs.isdir, Fs.isfile.
  destruct (Fs.lookup_entry version es) as [[|cs]|] eqn:E; try done.
  intros _. by rewrite E.
Qed.

Lemma rebuild_slot_blocked_by_file_witness :
  GhPages.cleanup_version_directory "index.html" tree_with_v123 = tree_with_v123
  ∧ GhPages.rebuild_slot (Some (Dir [])) "index.html" tree_with_v123
    = GhPages.DestinationExists.
Proof.
  exact (rebuild_slot_blocked_by_file [] tree_with_v123 "index.html" eq_refl).
Defined.

(** ** Enumeration, in general *)

Section EnumerationShape.

Lemma latest_paths_shape (docsdir : PurePath.t) (root : fsnode)
    (latest_version : string) (paths : list PurePath.t) :
  get_html_filepaths docsdir root latest_version latest_version = Ok paths →
  ∀ path, path ∈ paths ↔
          ∃ rel, path = docsdir ++ rel ∧ kept rel = true ∧ rel ∈ Fs.rglob_html root.
Proof.
  unfold get_html_filepaths. rewrite decide_True by done.
  rewrite skip_versioned_filter by apply rglob_html_nonempty.
  intros [= <-] path. rewrite list_elem_of_fmap.
  by setoid_rewrite list_elem_of_filter.
Qed.

Lemma version_paths_shape (docsdir : PurePath.t) (root : fsnode)
    (version_in_dir latest_version : string) (paths : list PurePath.t) :
  version_in_dir ≠ latest_version →
  get_html_filepaths docsdir root version_in_dir latest_version = Ok paths →
  ∀ path, path ∈ paths →
          ∃ es rel, Fs.node_at root [version_in_dir] = Some (Dir es)
                    ∧ path = docsdir ++ version_in_dir :: rel
                    ∧ rel ∈ Fs.rglob_html (Dir es).
Proof.
  intros Hne. unfold get_html_filepaths. rewrite decide_False by done.
  destruct (Fs.node_at root [version_in_dir]) as [[|es]|].
  - intros [= <-] path H. by apply elem_of_nil in H.
  - intros [= <-] path (rel & -> & Hin)%list_elem_of_fmap. by exists es, rel.
  - intros [= <-] path H. by apply elem_of_nil in H.
Qed.

Lemma lookup_entry_elem_of_1 (name : string) (node : fsnode) (es : Fs.entries) :
  Fs.lookup_entry name es = Some node → (name, node) ∈ es.
Proof.
  induction es as [|[n node'] es IH]; simpl; [done |].
  case_decide as Hn.
  - subst n. intros [= ->]. apply elem_of_cons. by left.
  - intros H. apply elem_of_cons. right. by apply IH.
Qed.

End EnumerationShape.

(** For a version that is not the latest, whose name is the name of a
    directory entry and which has no directory of that name in the tree,
    [get_html_filepaths] yields nothing and raises nothing. *)
Theorem get_html_filepaths_without_directory
    (docsdir : PurePath.t) (es : Fs.entries) (version_in_dir latest_version : string) :
  valid_segment version_in_dir →
  version_in_dir ≠ latest_version →
  Fs.isdir es version_in_dir = false →
  get_html_filepaths docsdir (Dir es) version_in_dir latest_version = Ok [].
Proof.
  intros _ Hne Hdir. unfold get_html_filepaths. rewrite decide_False by done.
  unfold Fs.isdir in Hdir. simpl.
  destruct (Fs.lookup_entry version_in_dir es) as [[|cs]|]; done.
Qed.

Lemma get_html_filepaths_without_directory_witness :
  get_html_filepaths tmp_abc (Dir tree_with_v123) "v1.2.2" "v1.2.4" = Ok [].
Proof.
  exact (get_html_filepaths_without_directory tmp_abc tree_with_v123
           "v1.2.2" "v1.2.4" ltac:(repeat split; discriminate)
           ltac:(discriminate) eq_refl).
Defined.

(** A path yielded for the latest version is never yielded for another
    version whose name starts with [master], [main] or [v]. *)
Theorem latest_documents_apart_from_versioned
    (docsdir : PurePath.t) (root : fsnode) (version_in_dir latest_version : string)
    (latest_paths version_paths : list PurePath.t) :
  version_in_dir ≠ latest_version →
  versioned_name version_in_dir = true →
  get_html_filepaths docsdir root latest_version latest_version = Ok latest_paths →
  get_html_filepaths docsdir root version_in_dir latest_version = Ok version_paths →
  ∀ path, path ∈ latest_paths → path ∉ version_paths.
Proof.
  intros Hne Hversioned Hlatest Hversion path Hin1 Hin2.
  apply (latest_paths_shape _ _ _ _ Hlatest) in Hin1 as (rel & -> & Hkept & _).
  apply (version_paths_shape _ _ _ _ _ Hne Hversion) in Hin2
    as (es & rel' & _ & ->%(inj (app docsdir)) & _).
  simpl in Hkept. rewrite Hversioned in Hkept. done.
Qed.

Lemma latest_documents_apart_from_versioned_witness :
  tmp_abc ++ ["index.html"]
  ∉ [tmp_abc ++ ["master"; "index.html"];
     tmp_abc ++ ["master"; "api"; "index.html"]].
Proof.
  apply (latest_documents_apart_from_versioned tmp_abc promoted_tree "master" "v1.2.4"
           [tmp_abc ++ ["index.html"]]);
    [discriminate | reflexivity | reflexivity | reflexivity |].
  apply (bool_decide_unpack _). vm_compute. exact I.
Defined.



Section NoRepetition.

Lemma fsnode_induction (P : fsnode → Prop) :
  P File →
  (∀ es, Forall (λ e, P e.2) es → P (Dir es)) →
  ∀ n, P n.
Proof.
  intros HFile HDir. fix IH 1. intros [|es].
  - exact HFile.
  - apply HDir. induction es as [|e es IHes]; constructor; [apply IH | exact IHes].
Qed.

Lemma NoDup_singles (es : Fs.entries) :
  NoDup es.*1 →
  NoDup ((λ e, [e.1]) <$> filter (λ e, Fs.matches_html e.1 = true) es).
Proof.
  induction es as [|e es IH]; [constructor |].
  intros [Hfresh Hnodup]%NoDup_cons. rewrite filter_cons.
  case_decide; [| by apply IH]. csimpl. apply NoDup_cons. split; [| by apply IH].
  intros (e' & [= Heq] & Hin)%list_elem_of_fmap.
  apply list_elem_of_filter in Hin as [_ Hin].
  apply Hfresh. rewrite Heq. by apply list_elem_of_fmap_2.
Qed.

Lemma NoDup_below (es : Fs.entries) :
  NoDup es.*1 →
  Forall (λ e, NoDup (Fs.rglob_html e.2)) es →
  NoDup (es ≫= λ e, cons e.1 <$> Fs.rglob_html e.2).
Proof.
  induction es as [|e es IH]; [constructor |].
  intros [Hfresh Hnodup]%NoDup_cons [He Hes]%Forall_cons.
  csimpl. apply NoDup_app. split_and!.
  - apply (NoDup_fmap_2 _). exact He.
  - intros path (rel & -> & _)%list_elem_of_fmap
      (e' & (rel' & [= Heq _] & _)%list_elem_of_fmap & Hin)%list_elem_of_bind.
    apply Hfresh. rewrite Heq. by apply list_elem_of_fmap_2.
  - by apply IH.
Qed.

Lemma NoDup_rglob_html (root : fsnode) : Fs.wf root → NoDup (Fs.rglob_html root).
Proof.
  induction root as [|es IH] using fsnode_induction; [constructor |].
  intros [Hnodup Hall]%wf_Dir.
  rewrite rglob_html_Dir. apply NoDup_app. split_and!.
  - by apply NoDup_singles.
  - intros path (e & -> & _)%list_elem_of_fmap
      (e' & (rel & [= _ <-] & Hrel)%list_elem_of_fmap & _)%list_elem_of_bind.
    by apply rglob_html_nonempty in Hrel.
  - apply NoDup_below; [done |].
    rewrite Forall_forall in IH, Hall. apply Forall_forall.
    intros e He. apply (IH e He), (Hall e He).
Qed.

End NoRepetition.

(** In a tree whose directories hold distinct names, [get_html_filepaths]
    yields no path twice. *)
Theorem get_html_filepaths_no_repetition
    (docsdir : PurePath.t) (root : fsnode) (version_in_dir latest_version : string)
    (paths : list PurePath.t) :
  Fs.wf root →
  get_html_filepaths docsdir root version_in_dir latest_version = Ok paths →
  NoDup paths.
Proof.
  intros Hwf. unfold get_html_filepaths. case_decide as Hv.
  - rewrite skip_versioned_filter by apply rglob_html_nonempty.
    intros [= <-]. apply (NoDup_fmap_2 _), NoDup_filter.
    by apply NoDup_rglob_html.
  - destruct (Fs.node_at root [version_in_dir]) as [[|es]|] eqn:Hnode;
      intros [= <-]; try constructor.
    apply (NoDup_fmap_2 (λ p, docsdir ++ version_in_dir :: p)).
    apply (NoDup_rglob_html (Dir es)).
    destruct root as [|es0]; [done |]. simpl in Hnode.
    destruct (Fs.lookup_entry version_in_dir es0) as [child|] eqn:E; [| done].
    injection Hnode as ->.
    apply wf_Dir in Hwf as [_ Hall]. rewrite Forall_forall in Hall.
    apply (Hall (version_in_dir, Dir es)). by apply lookup_entry_elem_of_1.
Qed.

Lemma get_html_filepaths_no_repetition_witness :
  NoDup [tmp_abc ++ ["master"; "index.html"];
         tmp_abc ++ ["master"; "api"; "index.html"]].
Proof.
  apply (get_html_filepaths_no_repetition tmp_abc promoted_tree "master" "v1.2.4").
  - simpl. repeat split; apply (bool_decide_unpack _); vm_compute; exact I.
  - reflexivity.
Defined.


(** ** Names of versions *)

(** A name that is the name of a directory entry is one part of a path, so
    joining it to a directory names the entry of that name in it. *)
Lemma path_parts_valid_segment (name : string) :
  valid_segment name → path_parts name = [name].
Proof.
  intros (Hne & Hdot & _ & Hfree). unfold path_parts.
  rewrite split_free by exact Hfree.
  rewrite filter_cons, decide_True by done. done.
Qed.
